(** * CarPi-Settings: the configuration stores of [carpisettings/__init__.py]

    A shallow embedding of the [ConfigStore] contract and of its stores:
    [MemoryStore] in full, [IniStore] from a loaded parser on (key
    splitting, the readers, [write_value], [save_config]), and the
    construction of a [RedisStore]; together with the part of Python's
    [configparser] and of the [dict] and [str] builtins that these call.
    Reading an INI file and talking to a Redis server are not modelled.

    Conventions.
    - A Python call either returns or raises: [result A].
    - A method that mutates [self] is a state transformer [M Self A]; the
      state it returns on [Raise] is the state at the point of the raise.
    - [str] is [string]; a character is a code point below 256.
    - [Any] is [value]: [None], [bool], [int] and [str] objects. *)

From stdpp Require Import base option list gmap strings pretty.
From Stdlib Require Import ZArith Ascii String.

Open Scope string_scope.
Open Scope Z_scope.

(** ** Exceptions and results *)

(** The exception classes that the modelled code can raise.  Messages are not
    kept: no caller inspects them. *)
Inductive exn : Type :=
  | TypeError
  | ValueError
  | AttributeError
  | NotImplementedError
  | NoSectionError
  | NoOptionError
  | InterpolationSyntaxError
  | InterpolationMissingOptionError
  | InterpolationDepthError.

#[global] Instance exn_eq_dec : EqDecision exn.
Proof. solve_decision. Defined.

Inductive result (A : Type) : Type :=
  | Ok (a : A)
  | Raise (e : exn).
Arguments Ok {A} a.
Arguments Raise {A} e.

Definition result_bind {A B} (r : result A) (k : A -> result B) : result B :=
  match r with
  | Ok a => k a
  | Raise e => Raise e
  end.

(** A method on a mutable object of type [S]. *)
Definition M (S A : Type) : Type := S -> result A * S.

Definition ret {S A} (a : A) : M S A := fun s => (Ok a, s).
Definition raise {S A} (e : exn) : M S A := fun s => (Raise e, s).
Definition lift {S A} (r : result A) : M S A := fun s => (r, s).
Definition bind {S A B} (m : M S A) (k : A -> M S B) : M S B :=
  fun s =>
    match m s with
    | (Ok a, s') => k a s'
    | (Raise e, s') => (Raise e, s')
    end.
Definition gets {S A} (f : S -> A) : M S A := fun s => (Ok (f s), s).
Definition modify {S} (f : S -> S) : M S unit := fun s => (Ok tt, f s).

Declare Scope py_scope.
Delimit Scope py_scope with py.
Notation "x <- m ;; k" := (bind m (fun x => k))
  (at level 100, m at next level, right associativity) : py_scope.
Notation "m ;; k" := (bind m (fun _ => k))
  (at level 100, right associativity) : py_scope.

(** ** Python values *)

Inductive value : Type :=
  | VNone
  | VBool (b : bool)
  | VInt (z : Z)
  | VStr (s : string).

#[global] Instance value_eq_dec : EqDecision value.
Proof. solve_decision. Defined.

(** [str(v)] *)
Definition py_str (v : value) : string :=
  match v with
  | VNone => "None"
  | VBool true => "True"
  | VBool false => "False"
  | VInt z => pretty z
  | VStr s => s
  end.

(** [v is not None] *)
Definition is_not_None (v : value) : bool :=
  match v with
  | VNone => false
  | _ => true
  end.

(** [v == "1"]: only the [str] object ["1"] equals the literal. *)
Definition eq_str (v : value) (lit : string) : bool :=
  match v with
  | VStr s => bool_decide (s = lit)
  | _ => false
  end.

(** Truth value of an optional [str] argument ([x if x else ...]): [None] and
    the empty string are false. *)
Definition truthy (o : option string) : bool :=
  match o with
  | Some s => negb (bool_decide (s = ""))
  | None => false
  end.

(** ** [str] methods *)

(** [s.find(c)] for a one-character [c]: the first position of [c]. *)
Fixpoint str_find (c : ascii) (s : string) : option nat :=
  match s with
  | EmptyString => None
  | String a s' => if decide (a = c) then Some 0%nat else S <$> str_find c s'
  end.

(** [c in s] *)
Definition str_contains (c : ascii) (s : string) : bool :=
  bool_decide (is_Some (str_find c s)).

(** [s.index(c)]: as [find], but raises [ValueError] when [c] is absent. *)
Definition str_index (s : string) (c : ascii) : result nat :=
  match str_find c s with
  | Some i => Ok i
  | None => Raise ValueError
  end.

(** [s[:n]] *)
Fixpoint str_take (n : nat) (s : string) : string :=
  match n, s with
  | S n', String a s' => String a (str_take n' s')
  | _, _ => EmptyString
  end.

(** [s[n:]] *)
Fixpoint str_drop (n : nat) (s : string) : string :=
  match n, s with
  | S n', String _ s' => str_drop n' s'
  | _, _ => s
  end.

(** [c.lower()] on the code points below 256: the upper-case letters are
    A-Z, and 0xC0-0xDE without the multiplication sign 0xD7; each has its
    lower-case form 32 places up. *)
Definition chr_lower (c : ascii) : ascii :=
  let n := nat_of_ascii c in
  if (Nat.leb 65 n && Nat.leb n 90)
     || (Nat.leb 192 n && Nat.leb n 222 && negb (Nat.eqb n 215))
  then ascii_of_nat (n + 32) else c.

(** [s.lower()] *)
Fixpoint str_lower (s : string) : string :=
  match s with
  | EmptyString => EmptyString
  | String a s' => String (chr_lower a) (str_lower s')
  end.

(** [s.replace("%%", "")]: occurrences are taken from the left and do not
    overlap. *)
Fixpoint remove_percent_pairs (s : string) : string :=
  match s with
  | String "%" (String "%" s') => remove_percent_pairs s'
  | String a s' => String a (remove_percent_pairs s')
  | EmptyString => EmptyString
  end.

(** [s.replace("%", "%%")]: how a caller escapes a text for
    [BasicInterpolation]. *)
Fixpoint double_percent (s : string) : string :=
  match s with
  | EmptyString => EmptyString
  | String a s' =>
      if decide (a = "%"%char) then String "%" (String "%" (double_percent s'))
      else String a (double_percent s')
  end.

(** [s.rfind(c)] for a one-character [c]: the last position of [c]. *)
Fixpoint str_rfind (c : ascii) (s : string) : option nat :=
  match s with
  | EmptyString => None
  | String a s' =>
      match str_rfind c s' with
      | Some i => Some (S i)
      | None => if decide (a = c) then Some 0%nat else None
      end
  end.

(** [os.path.basename(p)] on POSIX: [i = p.rfind('/') + 1; return p[i:]],
    where [rfind] gives [-1] when there is no slash. *)
Definition basename (p : string) : string :=
  let i := match str_rfind "/" p with
           | Some j => (j + 1)%nat
           | None => 0%nat
           end in
  str_drop i p.

(** ** The builtins [int] and [float]

    The conversions [int(v)] and [float(v)] are taken as given: every
    statement below holds for whatever they accept.  A conversion that
    rejects its argument raises (for a string, [ValueError]). *)
Class PyBuiltins : Type := {
  pyfloat : Type;
  py_int : value -> result Z;
  py_float : value -> result pyfloat
}.

(** [dict.get(key, default=None, /)]: both parameters are positional-only, so
    a call that passes any keyword argument raises [TypeError] before the
    dictionary is consulted.  [args] are the positional arguments after
    [key], [kwargs] the keyword arguments of the call. *)
Definition dict_get (d : gmap string value) (key : string)
    (args : list value) (kwargs : list (string * value)) : result value :=
  match kwargs with
  | _ :: _ => Raise TypeError
  | [] =>
      match args with
      | [] => Ok (default VNone (d !! key))
      | [dflt] => Ok (default dflt (d !! key))
      | _ => Raise TypeError
      end
  end.

(** ** Logging

    [carpicommons.log.logger(name)] hands out a [logging.Logger]; the stores
    only ever call [debug], [info] and [warning] on it.  The logger is
    modelled as the list of records it was given: a format string and its
    arguments. *)
Module Logger.
Inductive level : Type := DEBUG | INFO | WARNING.

Record record : Type := {
  levelname : level;
  msg : string;
  args : list string
}.

Record t : Type := {
  name : option string;
  records : list record
}.

Definition log (lvl : level) (m : string) (a : list string) (l : t) : t :=
  {| name := name l;
     records :=
       (records l ++ [ {| levelname := lvl; msg := m; args := a |} ])%list |}.

Definition debug := log DEBUG.
Definition info := log INFO.
Definition warning := log WARNING.
End Logger.

(** [carpicommons.log.logger] *)
Definition logger (name : option string) : Logger.t :=
  {| Logger.name := name; Logger.records := [] |}.

(** ** [configparser.ConfigParser]

    The parser as [ConfigParser()] builds it: default section ["DEFAULT"],
    [BasicInterpolation], [optionxform = str.lower], values always present
    ([allow_no_value] is off).  [vars] and [raw] are never passed by the
    stores and stay at their defaults. *)
Module ConfigParser.

Definition DEFAULTSECT : string := "DEFAULT".
Definition MAX_INTERPOLATION_DEPTH : nat := 10.

Record t : Type := {
  _sections : gmap string (gmap string string);
  _defaults : gmap string string
}.

(** The shape of a parser that was filled by [read_file], as
    [IniStore._load_config] does: a [[DEFAULT]] header fills [_defaults]
    and never becomes a key of [_sections], and a section header is not
    empty. *)
Definition wf (self : t) : Prop :=
  _sections self !! "" = None /\ _sections self !! DEFAULTSECT = None.

Definition optionxform (optionstr : string) : string := str_lower optionstr.

(** *** The regular expression [_KEYCRE = %\(([^)]+)\)s] *)

(** The longest prefix without a closing parenthesis, and what follows. *)
Fixpoint span_key (s : string) : string * string :=
  match s with
  | EmptyString => (EmptyString, EmptyString)
  | String a s' =>
      if decide (a = ")"%char) then (EmptyString, s)
      else let '(k, r) := span_key s' in (String a k, r)
  end.

(** [_KEYCRE.match(s)]: [Some (m.group(1), m.end())].  The class [[^)]+]
    is greedy and can only be followed by a closing parenthesis, so the
    group is the whole run up to the first one. *)
Definition keycre_match (s : string) : option (string * nat) :=
  match s with
  | String "%" (String "(" s') =>
      match span_key s' with
      | (String a k, String ")" (String "s" _)) =>
          Some (String a k, (String.length (String a k) + 4)%nat)
      | _ => None
      end
  | _ => None
  end.

(** [_KEYCRE.sub('', s)]: matches are searched from the left; [skip]
    counts the characters of the current match that are still to be
    dropped. *)
Fixpoint keycre_sub_from (skip : nat) (s : string) : string :=
  match s with
  | EmptyString => EmptyString
  | String a s' =>
      match skip with
      | S k => keycre_sub_from k s'
      | O =>
          match keycre_match s with
          | Some (_, e) => keycre_sub_from (e - 1) s'
          | None => String a (keycre_sub_from 0 s')
          end
      end
  end.

Definition keycre_sub (s : string) : string := keycre_sub_from 0 s.

(** *** [BasicInterpolation] *)

Definition before_set (val : string) : result string :=
  let tmp_value := remove_percent_pairs val in
  let tmp_value := keycre_sub tmp_value in
  if str_contains "%" tmp_value then Raise ValueError else Ok val.

(** The [while rest] loop of [_interpolate_some], by recursion on [rest]:
    text before a percent sign is copied, and [skip] counts the characters
    that [rest = rest[2:]] and [rest = rest[m.end():]] jump over.  The
    result is what the loop appends to [accum]; [expand v] is the nested
    call [self._interpolate_some(..., v, ..., depth + 1)]. *)
Fixpoint interpolate_loop (expand : string -> result string)
    (map : gmap string string) (skip : nat) (rest : string)
    : result string :=
  match rest with
  | EmptyString => Ok EmptyString
  | String a rest' =>
      match skip with
      | S k => interpolate_loop expand map k rest'
      | O =>
          if decide (a = "%"%char) then
            match rest' with
            | String "%" _ =>
                result_bind (interpolate_loop expand map 1%nat rest')
                  (fun tl => Ok (String "%" tl))
            | String "(" _ =>
                match keycre_match rest with
                | None => Raise InterpolationSyntaxError
                | Some (group1, e) =>
                    let var := optionxform group1 in
                    match map !! var with
                    | None => Raise InterpolationMissingOptionError
                    | Some v =>
                        result_bind
                          (if str_contains "%" v then expand v else Ok v)
                          (fun hd =>
                        result_bind
                          (interpolate_loop expand map (e - 1)%nat rest')
                          (fun tl =>
                        Ok (hd +:+ tl)))
                    end
                end
            | _ => Raise InterpolationSyntaxError
            end
          else
            result_bind (interpolate_loop expand map 0%nat rest')
              (fun tl => Ok (String a tl))
      end
  end.

(** [_interpolate_some(parser, option, accum, rest, section, map, depth)].
    The first argument is [MAX_INTERPOLATION_DEPTH + 1 - depth], the
    number of nested expansions still allowed: it is [0] exactly when
    [depth > MAX_INTERPOLATION_DEPTH]. *)
Fixpoint _interpolate_some (allowed : nat) (map : gmap string string)
    (rest : string) : result string :=
  match allowed with
  | O => Raise InterpolationDepthError
  | S allowed' =>
      interpolate_loop (_interpolate_some allowed' map) map 0%nat rest
  end.

Definition before_get (val : string) (defaults : gmap string string)
    : result string :=
  _interpolate_some MAX_INTERPOLATION_DEPTH defaults val.

(** *** [RawConfigParser] *)

(** [_ChainMap(vardict, sectiondict, self._defaults)] with an empty
    [vardict]: a lookup tries the section first and the defaults next,
    which is the left-biased union. *)
Definition _unify_values (self : t) (section : string)
    : result (gmap string string) :=
  match _sections self !! section with
  | Some sectiondict => Ok (sectiondict ∪ _defaults self)
  | None =>
      if decide (section ≠ DEFAULTSECT) then Raise NoSectionError
      else Ok (∅ ∪ _defaults self)
  end.

(** [get(section, option, fallback=fallback)]; [fallback = None] stands
    for the [_UNSET] sentinel. *)
Definition get (self : t) (section opt : string)
    (fallback : option value) : result value :=
  match _unify_values self section with
  | Raise NoSectionError =>
      match fallback with
      | None => Raise NoSectionError
      | Some fb => Ok fb
      end
  | Raise e => Raise e
  | Ok d =>
      let opt := optionxform opt in
      match d !! opt with
      | None =>
          match fallback with
          | None => Raise NoOptionError
          | Some fb => Ok fb
          end
      | Some val => result_bind (before_get val d) (fun s => Ok (VStr s))
      end
  end.

(** [_get_conv(section, option, conv, fallback=fallback)] *)
Definition _get_conv {A} (self : t) (section opt : string)
    (conv : value -> result A) (fallback : option A) : result A :=
  match get self section opt None with
  | Ok v => conv v
  | Raise e =>
      if bool_decide (e = NoSectionError \/ e = NoOptionError) then
        match fallback with
        | None => Raise e
        | Some fb => Ok fb
        end
      else Raise e
  end.

Definition BOOLEAN_STATES : gmap string bool :=
  list_to_map [("1", true); ("yes", true); ("true", true); ("on", true);
               ("0", false); ("no", false); ("false", false); ("off", false)].

(** [value.lower()] exists on [str] objects only. *)
Definition _convert_to_boolean (val : value) : result bool :=
  match val with
  | VStr s =>
      match BOOLEAN_STATES !! str_lower s with
      | None => Raise ValueError
      | Some b => Ok b
      end
  | _ => Raise AttributeError
  end.

Definition getboolean (self : t) (section opt : string)
    (fallback : option bool) : result bool :=
  _get_conv self section opt _convert_to_boolean fallback.

(** [getint] and [getfloat] return the fallback as it is, [None]
    included: the result is an optional number. *)
Definition getint `{PyBuiltins} (self : t) (section opt : string)
    (fallback : option (option Z)) : result (option Z) :=
  _get_conv self section opt
    (fun v => result_bind (py_int v) (fun z => Ok (Some z))) fallback.

Definition getfloat `{PyBuiltins} (self : t) (section opt : string)
    (fallback : option (option pyfloat)) : result (option pyfloat) :=
  _get_conv self section opt
    (fun v => result_bind (py_float v) (fun x => Ok (Some x))) fallback.

(** [set(section, option, value)].  [_validate_value_types] only checks
    that option and value are strings, which the types already say. *)
Definition set (section opt val : string) : M t unit :=
  fun self =>
    match (if bool_decide (val = "") then Ok val else before_set val) with
    | Raise e => (Raise e, self)
    | Ok val =>
        if bool_decide (section = "" \/ section = DEFAULTSECT) then
          (Ok tt,
           {| _sections := _sections self;
              _defaults := <[optionxform opt := val]> (_defaults self) |})
        else
          match _sections self !! section with
          | None => (Raise NoSectionError, self)
          | Some sectdict =>
              (Ok tt,
               {| _sections :=
                    <[section := <[optionxform opt := val]> sectdict]>
                      (_sections self);
                  _defaults := _defaults self |})
          end
    end.

End ConfigParser.

(** ** The file system

    A path names at most one text file.  Only [IniStore.save_config] writes
    to it. *)
Definition filesystem : Type := gmap string string.

(** Run a method of the store in a state that also holds the file system. *)
Definition on_self {S A} (m : M S A) : M (S * filesystem) A :=
  fun '(self, fs) => let '(r, self') := m self in (r, (self', fs)).

Open Scope py_scope.

(** ** [class ConfigStore] *)
Module ConfigStore.

(** What a subclass brings: its [_log] attribute and its [read_value],
    which the typed readers reach through [self]. *)
Class Subclass (Self : Type) : Type := {
  _log : Self -> Logger.t;
  with_log : Logger.t -> Self -> Self;
  read_value : string -> value -> M Self value
}.

(** [self._log.debug(msg, *args)] *)
Definition debug `{Subclass Self} (msg : string) (args : list string)
    : M Self unit :=
  modify (fun self => with_log (Logger.debug msg args (_log self)) self).

(** [__init__]: the logger that the new store starts with;
    [class_name] is [self.__class__.__name__]. *)
Definition __init__ (class_name : string) (logger_name : option string)
    : Logger.t :=
  Logger.debug "Setting up new Config Store ..." []
    (logger (if truthy logger_name then logger_name else Some class_name)).

(** The three methods that the contract leaves to the subclass. *)
Definition abstract_read_value {Self} (key : string) (default : value)
    : M Self value :=
  raise NotImplementedError.
Definition abstract_write_value {Self} (key : string) (val : value)
    : M Self unit :=
  raise NotImplementedError.
Definition abstract_save_config {Self} : M Self unit :=
  raise NotImplementedError.

Definition read_int_value `{PyBuiltins} `{Subclass Self}
    (key : string) (default : option Z) : M Self (option Z) :=
  debug "Reading %s as Int" [key] ;;
  v <- read_value key VNone ;;
  if is_not_None v then (z <- lift (py_int v) ;; ret (Some z))
  else ret default.

Definition read_float_value `{PyBuiltins} `{Subclass Self}
    (key : string) (default : option pyfloat) : M Self (option pyfloat) :=
  debug "Reading %s as Float" [key] ;;
  v <- read_value key VNone ;;
  if is_not_None v then (x <- lift (py_float v) ;; ret (Some x))
  else ret default.

Definition read_bool_value `{Subclass Self}
    (key : string) (default : bool) : M Self bool :=
  debug "Reading %s as Bool" [key] ;;
  v <- read_value key VNone ;;
  if is_not_None v then ret (eq_str v "1") else ret default.

End ConfigStore.

(** ** [class MemoryStore(ConfigStore)] *)
Module MemoryStore.

Record t : Type := {
  _log : Logger.t;
  _dict : gmap string value
}.

Definition with_log (l : Logger.t) (self : t) : t :=
  {| _log := l; _dict := _dict self |}.

Definition __init__ (logger_name : option string) : t :=
  {| _log :=
       Logger.info "New In-Memory configuration setup" []
         (ConfigStore.__init__ "MemoryStore" logger_name);
     _dict := ∅ |}.

Definition debug (msg : string) (args : list string) : M t unit :=
  modify (fun self => with_log (Logger.debug msg args (_log self)) self).

(** [return self._dict.get(key, default=default)] *)
Definition read_value (key : string) (default : value) : M t value :=
  debug "Reading %s" [key] ;;
  d <- gets _dict ;;
  lift (dict_get d key [] [("default", default)]).

(** [self._dict[key] = value] *)
Definition write_value (key : string) (val : value) : M t unit :=
  debug "Writing %s" [key] ;;
  modify (fun self => {| _log := _log self;
                         _dict := <[key := val]> (_dict self) |}).

Definition save_config : M (t * filesystem) unit :=
  on_self (modify (fun self =>
    with_log
      (Logger.warning
         "In-Memory configurations cannot be saved! This is a NOOP" []
         (_log self)) self)).

#[global] Instance subclass : ConfigStore.Subclass t := {
  ConfigStore._log := _log;
  ConfigStore.with_log := with_log;
  ConfigStore.read_value := read_value
}.

End MemoryStore.

(** ** [class IniStore(ConfigStore)] *)
Module IniStore.

Record t : Type := {
  _log : Logger.t;
  _config : ConfigParser.t;
  _file_path : string
}.

Definition with_log (l : Logger.t) (self : t) : t :=
  {| _log := l; _config := _config self; _file_path := _file_path self |}.

Definition with_config (c : ConfigParser.t) (self : t) : t :=
  {| _log := _log self; _config := c; _file_path := _file_path self |}.

Definition debug (msg : string) (args : list string) : M t unit :=
  modify (fun self => with_log (Logger.debug msg args (_log self)) self).
Definition info (msg : string) (args : list string) : M t unit :=
  modify (fun self => with_log (Logger.info msg args (_log self)) self).

(** A call [self._config.m(...)] of a method that mutates the parser. *)
Definition on_config {A} (m : M ConfigParser.t A) : M t A :=
  fun self => let '(r, c) := m (_config self) in (r, with_config c self).

(** [dot = key.index('.'); return key[:dot], key[dot + 1:]] *)
Definition _parse_key (key : string) : result (string * string) :=
  result_bind (str_index key ".") (fun dot =>
  Ok (str_take dot key, str_drop (dot + 1) key)).

Definition read_value (key : string) (default : value) : M t value :=
  p <- lift (_parse_key key) ;;
  let '(ini_sec, ini_key) := p in
  debug "Reading [%s] %s" [ini_sec; ini_key] ;;
  c <- gets _config ;;
  lift (ConfigParser.get c ini_sec ini_key (Some default)).

Definition read_int_value `{PyBuiltins} (key : string) (default : option Z)
    : M t (option Z) :=
  p <- lift (_parse_key key) ;;
  let '(ini_sec, ini_key) := p in
  debug "Reading [%s] %s as Int" [ini_sec; ini_key] ;;
  c <- gets _config ;;
  lift (ConfigParser.getint c ini_sec ini_key (Some default)).

Definition read_float_value `{PyBuiltins} (key : string)
    (default : option pyfloat) : M t (option pyfloat) :=
  p <- lift (_parse_key key) ;;
  let '(ini_sec, ini_key) := p in
  debug "Reading [%s] %s as Float" [ini_sec; ini_key] ;;
  c <- gets _config ;;
  lift (ConfigParser.getfloat c ini_sec ini_key (Some default)).

Definition read_bool_value (key : string) (default : bool) : M t bool :=
  p <- lift (_parse_key key) ;;
  let '(ini_sec, ini_key) := p in
  debug "Reading [%s] %s as Bool" [ini_sec; ini_key] ;;
  c <- gets _config ;;
  lift (ConfigParser.getboolean c ini_sec ini_key (Some default)).

Definition write_value (key : string) (val : value) : M t unit :=
  p <- lift (_parse_key key) ;;
  let '(ini_sec, ini_key) := p in
  debug "Writing [%s] %s" [ini_sec; ini_key] ;;
  on_config (ConfigParser.set ini_sec ini_key (py_str val)).

(** [save_config]: [open(self._file_path, 'w')] truncates the file and
    [self._config.write(f)] fills it; [ini_text] is the text that
    [ConfigParser.write] produces for a parser. *)
Definition save_config (ini_text : ConfigParser.t -> string)
    : M (t * filesystem) unit :=
  self <- gets fst ;;
  on_self (info "Writing configuration to %s ..." [_file_path self]) ;;
  modify (fun '(self, fs) =>
    (self, <[_file_path self := ini_text (_config self)]> fs)) ;;
  on_self (info "Completed!" [_file_path self]).

(** [_load_config], on the logger that [self] has at that point.  [load]
    stands for [open(ini_file, 'r')] followed by
    [ConfigParser().read_file(f)]: the parser for the text of the file, or
    the exception of either step. *)
Definition _load_config (load : string -> result ConfigParser.t)
    (ini_file : string) : M Logger.t ConfigParser.t :=
  modify (Logger.info "Reading configuration from %s ..." [ini_file]) ;;
  c <- lift (load ini_file) ;;
  modify (Logger.info "Read configuration successfully" []) ;;
  ret c.

(** [__init__(ini_file, logger_name)]: an exception of [_load_config]
    leaves no store. *)
Definition __init__ (load : string -> result ConfigParser.t)
    (ini_file : string) (logger_name : option string) : result t :=
  let log :=
    ConfigStore.__init__ "IniStore"
      (if truthy logger_name then logger_name
       else Some (basename ini_file)) in
  match _load_config load ini_file log with
  | (Ok c, log') =>
      Ok {| _log := log'; _config := c; _file_path := ini_file |}
  | (Raise e, _) => Raise e
  end.

#[global] Instance subclass : ConfigStore.Subclass t := {
  ConfigStore._log := _log;
  ConfigStore.with_log := with_log;
  ConfigStore.read_value := read_value
}.

End IniStore.

(** ** [class RedisStore(ConfigStore)] *)

(** The client library [redis.client]: the class [Redis] with its two ways
    of making a client, [Redis.from_url(url)] and
    [Redis(host=..., port=..., db=..., password=...)].  Either may raise.  A
    client object is true in a condition ([Redis] defines neither [__bool__]
    nor [__len__]). *)
Class RedisLib : Type := {
  Redis : Type;
  Redis_from_url : string -> result Redis;
  Redis_new : string -> Z -> Z -> option string -> result Redis
}.

Module RedisStore.

Record t `{RedisLib} : Type := {
  _log : Logger.t;
  _redis : Redis
}.

(** The parameters of [__init__]. *)
Record args `{RedisLib} : Type := {
  redis : option Redis;
  url : option string;
  host : string;
  port : Z;
  db : Z;
  password : option string;
  logger_name : option string
}.

(** The declared defaults: what a call [RedisStore()] passes. *)
Definition defaults `{RedisLib} : args :=
  {| redis := None; url := None; host := "127.0.0.1"; port := 6379;
     db := 0; password := None; logger_name := None |}.

Definition _build_redis `{RedisLib} (host : string) (port db : Z)
    (password : option string) : result Redis :=
  Redis_new host port db password.

(** The name handed to [super().__init__]:
    [logger_name if logger_name else (url if url else
     ("Redis {}".format(host) if host else None))] *)
Definition log_name `{RedisLib} (a : args) : option string :=
  if truthy (logger_name a) then logger_name a
  else if truthy (url a) then url a
  else if truthy (Some (host a)) then Some ("Redis " +:+ host a)
  else None.

Definition __init__ `{RedisLib} (a : args) : result t :=
  let log := ConfigStore.__init__ "RedisStore" (log_name a) in
  result_bind
    (match redis a with
     | Some r => Ok r
     | None =>
         if truthy (url a) then Redis_from_url (default "" (url a))
         else _build_redis (host a) (port a) (db a) (password a)
     end) (fun r =>
  Ok {| _log := log; _redis := r |}).

End RedisStore.

(** ** Sample stores

    Small stores on which the statements below are run. *)
Module Sample.

(** A parser holding [sections] and [defaults]. *)
Definition parser (sections : list (string * list (string * string)))
    (defaults : list (string * string)) : ConfigParser.t :=
  {| ConfigParser._sections :=
       list_to_map (prod_map id list_to_map <$> sections);
     ConfigParser._defaults := list_to_map defaults |}.

(** An [IniStore] on the file [settings.ini] with that content. *)
Definition ini (sections : list (string * list (string * string)))
    (defaults : list (string * string)) : IniStore.t :=
  {| IniStore._log := ConfigStore.__init__ "IniStore" (Some "settings.ini");
     IniStore._config := parser sections defaults;
     IniStore._file_path := "settings.ini" |}.

(** A fresh [MemoryStore()]. *)
Definition memory : MemoryStore.t := MemoryStore.__init__ None.

(** Conversions that read a run of decimal digits, for running the typed
    readers. *)
Fixpoint digits (acc : Z) (s : string) : option Z :=
  match s with
  | EmptyString => Some acc
  | String a s' =>
      let n := Z.of_nat (nat_of_ascii a) in
      if (48 <=? n) && (n <=? 57)
      then digits (10 * acc + (n - 48)) s' else None
  end.

Definition int_of (v : value) : result Z :=
  match v with
  | VStr (String a s) =>
      match digits 0 (String a s) with
      | Some z => Ok z
      | None => Raise ValueError
      end
  | VStr EmptyString => Raise ValueError
  | VInt z => Ok z
  | VBool b => Ok (Z.b2z b)
  | VNone => Raise TypeError
  end.

#[local] Instance builtins : PyBuiltins := {
  pyfloat := Z;
  py_int := int_of;
  py_float := int_of
}.

(** A client library in which no client can be made. *)
#[local] Instance no_redis : RedisLib := {
  Redis := unit;
  Redis_from_url := fun _ => Raise ValueError;
  Redis_new := fun _ _ _ _ => Raise ValueError
}.

(** A call of [RedisStore] in that library, with every parameter but
    [logger_name] given. *)
Definition redis_args (r : option unit) (u : option string)
    : @RedisStore.args no_redis :=
  @RedisStore.Build_args no_redis r u "10.0.0.1" 6380 2 (Some "pw") None.

End Sample.

(** * Properties *)

(** ** Strings *)

Lemma append_String a s r : String a s +:+ r = String a (s +:+ r).
Proof. reflexivity. Qed.

Lemma append_empty r : EmptyString +:+ r = r.
Proof. reflexivity. Qed.

Lemma str_find_split c s i :
  str_find c s = Some i ->
  str_find c (str_take i s) = None /\
  s = str_take i s +:+ String c (str_drop (i + 1) s).
Proof.
  revert i. induction s as [|a s IH]; intros i; simpl; [done|].
  destruct (decide (a = c)) as [->|Hne].
  - intros [= <-]. done.
  - destruct (str_find c s) as [j|] eqn:Hj; simpl; [|done].
    intros [= <-]. destruct (IH j eq_refl) as [Hn Hs]. simpl.
    rewrite decide_False by done. rewrite Hn. split; [done|].
    rewrite append_String. by rewrite <- Hs.
Qed.

Lemma str_find_app_first c s r :
  str_find c s = None ->
  str_find c (s +:+ String c r) = Some (String.length s).
Proof.
  induction s as [|a s IH]; simpl.
  - intros _. by rewrite decide_True.
  - destruct (decide (a = c)) as [|Hne]; [done|].
    destruct (str_find c s); simpl; [done|].
    intros _. by rewrite IH.
Qed.

Lemma str_take_app s r : str_take (String.length s) (s +:+ r) = s.
Proof.
  induction s as [|a s IH]; [by destruct r|].
  rewrite append_String. simpl. by rewrite IH.
Qed.

Lemma str_drop_app s r : str_drop (String.length s) (s +:+ r) = r.
Proof.
  induction s as [|a s IH]; [done|]. rewrite append_String. exact IH.
Qed.

Lemma str_drop_app_cons s a r :
  str_drop (String.length s + 1) (s +:+ String a r) = r.
Proof.
  induction s as [|b s IH]; [done|]. rewrite append_String. exact IH.
Qed.

Lemma str_contains_false c s : str_contains c s = false <-> str_find c s = None.
Proof.
  unfold str_contains. rewrite bool_decide_eq_false.
  destruct (str_find c s); split; intros H; try done.
  exfalso; apply H; eauto.
Qed.

Lemma str_contains_true c s :
  str_contains c s = true <-> exists i, str_find c s = Some i.
Proof. unfold str_contains. by rewrite bool_decide_eq_true. Qed.

(** ** [IniStore._parse_key] *)

Lemma parse_key_Ok key sec field :
  IniStore._parse_key key = Ok (sec, field) ->
  str_contains "." sec = false /\ key = sec +:+ "." +:+ field.
Proof.
  unfold IniStore._parse_key, str_index.
  destruct (str_find "." key) as [i|] eqn:Hi; simpl; [|done].
  intros [= <- <-]. destruct (str_find_split _ _ _ Hi) as [Hn Hs].
  split; [by apply str_contains_false|]. exact Hs.
Qed.

Lemma parse_key_app sec field :
  str_contains "." sec = false ->
  IniStore._parse_key (sec +:+ "." +:+ field) = Ok (sec, field).
Proof.
  intros Hn%str_contains_false. unfold IniStore._parse_key, str_index.
  change (sec +:+ "." +:+ field) with (sec +:+ String "." field).
  rewrite (str_find_app_first _ _ _ Hn). simpl.
  by rewrite str_take_app, str_drop_app_cons.
Qed.

Lemma parse_key_Raise key :
  str_contains "." key = false ->
  IniStore._parse_key key = Raise ValueError.
Proof.
  intros Hn%str_contains_false. unfold IniStore._parse_key, str_index.
  by rewrite Hn.
Qed.

(** C3. [_parse_key] splits a key at its first dot: the section has no dot
    and [section + "." + field] is the key again, so later dots stay in the
    field; every key of that shape is split that way;
    [_parse_key "db.host"] is [("db", "host")]; and a key without a dot,
    such as ["nosep"], raises ([ValueError], from [str.index]) and yields no
    pair. *)
Theorem C3_parse_key_first_dot :
  (forall key sec field,
      IniStore._parse_key key = Ok (sec, field) ->
      str_contains "." sec = false /\ key = sec +:+ "." +:+ field) /\
  (forall sec field,
      str_contains "." sec = false ->
      IniStore._parse_key (sec +:+ "." +:+ field) = Ok (sec, field)) /\
  IniStore._parse_key "db.host" = Ok ("db", "host") /\
  IniStore._parse_key "a.b.c" = Ok ("a", "b.c") /\
  (forall key,
      str_contains "." key = false ->
      IniStore._parse_key key = Raise ValueError) /\
  IniStore._parse_key "nosep" = Raise ValueError.
Proof.
  split; [exact parse_key_Ok|].
  split; [exact parse_key_app|].
  split; [reflexivity|].
  split; [reflexivity|].
  split; [exact parse_key_Raise|reflexivity].
Qed.

(** ** [MemoryStore] *)

(** C1. [MemoryStore.read_value] raises [TypeError] on every store, key and
    default: [dict.get] takes no keyword argument, and the call passes
    [default=default].  It does so on a fresh store, where the claim expects
    the default back, and after a write of the key, where the claim expects
    the written value. *)
Theorem C1_memory_read_value_raises :
  (forall (self : MemoryStore.t) key default,
      (MemoryStore.read_value key default self).1 = Raise TypeError) /\
  (MemoryStore.read_value "k" (VStr "D") Sample.memory).1 = Raise TypeError /\
  (MemoryStore.read_value "k" (VStr "D")
     (MemoryStore.write_value "k" (VStr "v") Sample.memory).2).1
  = Raise TypeError.
Proof. repeat split. Qed.

(** C9. [MemoryStore.save_config] returns normally on every store and file
    system, leaves the file system as it found it, leaves the dictionary as
    it found it, and its only effect is one warning on the store's logger. *)
Theorem C9_memory_save_config_noop (self : MemoryStore.t) (fs : filesystem) :
  exists self',
    MemoryStore.save_config (self, fs) = (Ok tt, (self', fs)) /\
    MemoryStore._dict self' = MemoryStore._dict self /\
    Logger.records (MemoryStore._log self') =
      (Logger.records (MemoryStore._log self) ++
       [ {| Logger.levelname := Logger.WARNING;
            Logger.msg :=
              "In-Memory configurations cannot be saved! This is a NOOP";
            Logger.args := [] |} ])%list.
Proof. eexists. repeat split. Qed.

(** Writing a key of a [MemoryStore] changes no other entry. *)
Lemma memory_write_value_frame (self : MemoryStore.t) k v k' :
  k <> k' ->
  MemoryStore._dict (MemoryStore.write_value k v self).2 !! k' =
  MemoryStore._dict self !! k'.
Proof. intros Hne. simpl. by rewrite lookup_insert_ne. Qed.

(** X20.  On a [MemoryStore] the typed readers of the contract fail with
    [read_value]: each raises [TypeError], for every store, key and
    default. *)
Lemma memory_typed_readers_raise `{PyBuiltins} (self : MemoryStore.t) key :
  (forall d, (ConfigStore.read_int_value key d self).1 = Raise TypeError) /\
  (forall d, (ConfigStore.read_float_value key d self).1 = Raise TypeError) /\
  (forall d, (ConfigStore.read_bool_value key d self).1 = Raise TypeError).
Proof. repeat split. Qed.

(** ** Interpolation of text without a percent sign *)

Lemma str_contains_cons c a s :
  str_contains c (String a s) = false <->
  a <> c /\ str_contains c s = false.
Proof.
  rewrite !str_contains_false. simpl.
  destruct (decide (a = c)) as [->|Hne].
  - split; [done|]. by intros [? _].
  - destruct (str_find c s); simpl; split; try done. by intros [_ ?].
Qed.

Lemma remove_percent_pairs_other a s :
  a <> "%"%char ->
  remove_percent_pairs (String a s) = String a (remove_percent_pairs s).
Proof.
  intros Hne. destruct a as [[] [] [] [] [] [] [] []]; try reflexivity.
  by destruct Hne.
Qed.

Lemma keycre_match_other a s :
  a <> "%"%char -> ConfigParser.keycre_match (String a s) = None.
Proof.
  intros Hne. destruct a as [[] [] [] [] [] [] [] []]; try reflexivity.
  by destruct Hne.
Qed.

Lemma remove_percent_pairs_id s :
  str_contains "%" s = false -> remove_percent_pairs s = s.
Proof.
  induction s as [|a s IH]; [done|].
  intros [Hne Hs]%str_contains_cons.
  rewrite remove_percent_pairs_other by done. by rewrite IH.
Qed.

Lemma keycre_sub_id s :
  str_contains "%" s = false -> ConfigParser.keycre_sub s = s.
Proof.
  unfold ConfigParser.keycre_sub. induction s as [|a s IH]; [done|].
  intros [Hne Hs]%str_contains_cons.
  cbn [ConfigParser.keycre_sub_from]. rewrite keycre_match_other by done.
  by rewrite IH.
Qed.

Lemma before_set_plain s :
  str_contains "%" s = false -> ConfigParser.before_set s = Ok s.
Proof.
  intros Hs. unfold ConfigParser.before_set.
  by rewrite remove_percent_pairs_id, keycre_sub_id, Hs.
Qed.

Lemma interpolate_loop_plain expand map s :
  str_contains "%" s = false ->
  ConfigParser.interpolate_loop expand map 0 s = Ok s.
Proof.
  induction s as [|a s IH]; [done|].
  intros [Hne Hs]%str_contains_cons.
  cbn [ConfigParser.interpolate_loop]. rewrite decide_False by done.
  by rewrite IH.
Qed.

Lemma before_get_plain s map :
  str_contains "%" s = false -> ConfigParser.before_get s map = Ok s.
Proof. intros Hs. by apply interpolate_loop_plain. Qed.

(** ** [IniStore]: the methods in terms of the parser's *)

Lemma ini_read_value_get key sec field default (self : IniStore.t) :
  IniStore._parse_key key = Ok (sec, field) ->
  (IniStore.read_value key default self).1 =
  ConfigParser.get (IniStore._config self) sec field (Some default).
Proof.
  intros Hp. unfold IniStore.read_value, bind, lift. by rewrite Hp.
Qed.

Lemma ini_read_bool_value_get key sec field default (self : IniStore.t) :
  IniStore._parse_key key = Ok (sec, field) ->
  (IniStore.read_bool_value key default self).1 =
  ConfigParser.getboolean (IniStore._config self) sec field (Some default).
Proof.
  intros Hp. unfold IniStore.read_bool_value, bind, lift. by rewrite Hp.
Qed.

Lemma ini_write_value_set key sec field v (self : IniStore.t) :
  IniStore._parse_key key = Ok (sec, field) ->
  (IniStore.write_value key v self).1 =
    (ConfigParser.set sec field (py_str v) (IniStore._config self)).1 /\
  IniStore._config (IniStore.write_value key v self).2 =
    (ConfigParser.set sec field (py_str v) (IniStore._config self)).2.
Proof.
  intros Hp. unfold IniStore.write_value, bind, lift, IniStore.on_config.
  rewrite Hp. simpl.
  by destruct (ConfigParser.set sec field (py_str v) (IniStore._config self)).
Qed.

Lemma ini_write_value_malformed key v (self : IniStore.t) :
  str_contains "." key = false ->
  IniStore.write_value key v self = (Raise ValueError, self).
Proof.
  intros Hp%parse_key_Raise. unfold IniStore.write_value, bind, lift.
  by rewrite Hp.
Qed.

(** ** [ConfigParser.get] and [ConfigParser.set] *)

Lemma get_no_section c sec opt fb :
  ConfigParser._sections c !! sec = None ->
  sec <> ConfigParser.DEFAULTSECT ->
  ConfigParser.get c sec opt (Some fb) = Ok fb.
Proof.
  intros Hs Hd. unfold ConfigParser.get, ConfigParser._unify_values.
  rewrite Hs. by rewrite decide_True.
Qed.

Lemma get_in_section c sec opt fb d :
  ConfigParser._sections c !! sec = Some d ->
  ConfigParser.get c sec opt (Some fb) =
  match (d ∪ ConfigParser._defaults c) !! ConfigParser.optionxform opt with
  | None => Ok fb
  | Some raw =>
      result_bind
        (ConfigParser.before_get raw (d ∪ ConfigParser._defaults c))
        (fun s => Ok (VStr s))
  end.
Proof.
  intros Hs. unfold ConfigParser.get, ConfigParser._unify_values.
  by rewrite Hs.
Qed.

Lemma set_in_section c sec opt val d :
  ConfigParser._sections c !! sec = Some d ->
  sec <> "" -> sec <> ConfigParser.DEFAULTSECT ->
  ConfigParser.before_set val = Ok val ->
  ConfigParser.set sec opt val c =
  (Ok tt,
   {| ConfigParser._sections :=
        <[sec := <[ConfigParser.optionxform opt := val]> d]>
          (ConfigParser._sections c);
      ConfigParser._defaults := ConfigParser._defaults c |}).
Proof.
  intros Hs H1 H2 Hv. unfold ConfigParser.set.
  replace (if bool_decide (val = "") then Ok val else ConfigParser.before_set val)
    with (Ok (A:=string) val) by (by case_bool_decide).
  rewrite bool_decide_eq_false_2 by (by intros [|]).
  by rewrite Hs.
Qed.

Lemma set_in_defaults c opt val :
  ConfigParser.before_set val = Ok val ->
  ConfigParser.set ConfigParser.DEFAULTSECT opt val c =
  (Ok tt,
   {| ConfigParser._sections := ConfigParser._sections c;
      ConfigParser._defaults :=
        <[ConfigParser.optionxform opt := val]> (ConfigParser._defaults c) |}).
Proof.
  intros Hv. unfold ConfigParser.set.
  replace (if bool_decide (val = "") then Ok val else ConfigParser.before_set val)
    with (Ok (A:=string) val) by (by case_bool_decide).
  by rewrite bool_decide_eq_true_2 by (by right).
Qed.

Lemma set_no_section c sec opt val :
  ConfigParser._sections c !! sec = None ->
  sec <> "" -> sec <> ConfigParser.DEFAULTSECT ->
  exists e, ConfigParser.set sec opt val c = (Raise e, c).
Proof.
  intros Hs H1 H2. unfold ConfigParser.set.
  destruct (if bool_decide (val = "") then Ok val else ConfigParser.before_set val)
    as [val'|e]; [|by exists e].
  rewrite bool_decide_eq_false_2 by (by intros [|]).
  rewrite Hs. by exists NoSectionError.
Qed.

(** A failed [set] leaves the parser as it was, whatever the reason. *)
Lemma set_Raise_unchanged c sec opt val e c' :
  ConfigParser.set sec opt val c = (Raise e, c') -> c' = c.
Proof.
  unfold ConfigParser.set.
  destruct (if bool_decide (val = "") then Ok val else ConfigParser.before_set val);
    [|by intros [= _ <-]].
  case_bool_decide; [done|].
  destruct (ConfigParser._sections c !! sec); [done|]. by intros [= _ <-].
Qed.

(** [set] keeps the parser well formed. *)
Lemma set_wf c sec opt val :
  ConfigParser.wf c -> ConfigParser.wf (ConfigParser.set sec opt val c).2.
Proof.
  intros [H1 H2]. unfold ConfigParser.set.
  destruct (if bool_decide (val = "") then Ok val else ConfigParser.before_set val);
    [|done].
  case_bool_decide as Hd; [done|].
  destruct (ConfigParser._sections c !! sec) eqn:Hs; [|done].
  split; simpl; rewrite lookup_insert_ne; try done; intros ->; apply Hd; auto.
Qed.

(** ** Write, then read *)

(** C2, as stated, fails on an [IniStore]: with the section present, the
    value ["50%%"] is accepted by [write_value], and [read_value] then
    returns ["50%"], which is not the string that was written. *)
Lemma C2_counterexample :
  IniStore._parse_key "sec.a" = Ok ("sec", "a") /\
  is_Some (ConfigParser._sections
             (IniStore._config (Sample.ini [("sec", [])] [])) !! "sec") /\
  (IniStore.write_value "sec.a" (VStr "50%%")
     (Sample.ini [("sec", [])] [])).1 = Ok tt /\
  (IniStore.read_value "sec.a" VNone
     (IniStore.write_value "sec.a" (VStr "50%%")
        (Sample.ini [("sec", [])] [])).2).1 = Ok (VStr "50%") /\
  VStr "50%" <> VStr (py_str (VStr "50%%")).
Proof.
  split; [reflexivity|]. split; [by eexists|].
  split; [by vm_compute|]. split; [by vm_compute|]. done.
Qed.

(** C2, amended.  On an [IniStore] whose parser is well formed and holds
    the section of the key, and for a value whose string form has no
    percent sign, [write_value] succeeds and a [read_value] of the same key
    on the resulting store returns that string form; no [save_config] is
    involved. *)
Theorem C2_ini_write_then_read (self : IniStore.t) key v sec field :
  IniStore._parse_key key = Ok (sec, field) ->
  ConfigParser.wf (IniStore._config self) ->
  is_Some (ConfigParser._sections (IniStore._config self) !! sec) ->
  str_contains "%" (py_str v) = false ->
  (IniStore.write_value key v self).1 = Ok tt /\
  (IniStore.read_value key VNone (IniStore.write_value key v self).2).1
  = Ok (VStr (py_str v)).
Proof.
  intros Hp [Hw1 Hw2] [d Hd] Hv.
  assert (sec <> "") as Hne1 by (intros ->; congruence).
  assert (sec <> ConfigParser.DEFAULTSECT) as Hne2 by (intros ->; congruence).
  destruct (ini_write_value_set key sec field v self Hp) as [Hr Hc].
  rewrite (set_in_section _ _ _ _ d Hd Hne1 Hne2 (before_set_plain _ Hv))
    in Hr, Hc.
  split; [exact Hr|].
  rewrite (ini_read_value_get _ _ _ _ _ Hp), Hc.
  erewrite get_in_section by (simpl; apply lookup_insert_eq).
  simpl. erewrite lookup_union_Some_l by apply lookup_insert_eq.
  by rewrite before_get_plain.
Qed.

Lemma C2_ini_write_then_read_witness :
  (IniStore.write_value "db.host" (VInt 8080)
     (Sample.ini [("db", [("host", "old")])] [("host", "dflt")])).1 = Ok tt /\
  (IniStore.read_value "db.host" VNone
     (IniStore.write_value "db.host" (VInt 8080)
        (Sample.ini [("db", [("host", "old")])] [("host", "dflt")])).2).1
  = Ok (VStr (py_str (VInt 8080))).
Proof.
  apply (C2_ini_write_then_read _ "db.host" (VInt 8080) "db" "host").
  - reflexivity.
  - split; reflexivity.
  - by eexists.
  - reflexivity.
Defined.

(** ** [IniStore.read_value] *)

(** C4, as stated, fails in both halves.  A field that its section lacks is
    still found when the [[DEFAULT]] section has it, so the default is not
    returned; and a stored string with a percent sign is returned
    interpolated (["50%%"] reads as ["50%"]) or not at all (["%"] raises). *)
Lemma C4_counterexample :
  IniStore._parse_key "sec.a" = Ok ("sec", "a") /\
  (ConfigParser._sections
     (IniStore._config (Sample.ini [("sec", [])] [("a", "1")])) !! "sec"
   = Some ∅ /\
   (IniStore.read_value "sec.a" (VStr "D")
      (Sample.ini [("sec", [])] [("a", "1")])).1 = Ok (VStr "1") /\
   VStr "1" <> VStr "D") /\
  (ConfigParser._sections
     (IniStore._config (Sample.ini [("sec", [("a", "50%%")])] [])) !! "sec"
   = Some {["a" := "50%%"]} /\
   (IniStore.read_value "sec.a" VNone
      (Sample.ini [("sec", [("a", "50%%")])] [])).1 = Ok (VStr "50%") /\
   VStr "50%" <> VStr "50%%") /\
  (IniStore.read_value "sec.a" VNone
     (Sample.ini [("sec", [("a", "%")])] [])).1
  = Raise InterpolationSyntaxError.
Proof.
  split; [reflexivity|].
  split; [split; [by vm_compute|split; [by vm_compute|done]]|].
  split; [split; [by vm_compute|split; [by vm_compute|done]]|].
  by vm_compute.
Qed.

(** C4, amended.  For a key that splits into [sec] and [field], and any
    default:
    - when [sec] is not a section of the parser (and is not the name
      [DEFAULT]), [read_value] returns the default;
    - when [sec] is a section and neither it nor the defaults hold the
      lower-cased field, [read_value] returns the default;
    - when the section holds the field, or lacks it while the defaults hold
      it, [read_value] returns the stored string after interpolation, which
      is the stored string itself when it has no percent sign. *)
Theorem C4_ini_read_value (self : IniStore.t) key sec field default :
  IniStore._parse_key key = Ok (sec, field) ->
  let c := IniStore._config self in
  let opt := ConfigParser.optionxform field in
  let r := (IniStore.read_value key default self).1 in
  (ConfigParser._sections c !! sec = None ->
   sec <> ConfigParser.DEFAULTSECT -> r = Ok default) /\
  (forall d,
      ConfigParser._sections c !! sec = Some d ->
      d !! opt = None -> ConfigParser._defaults c !! opt = None ->
      r = Ok default) /\
  (forall d raw,
      ConfigParser._sections c !! sec = Some d ->
      d !! opt = Some raw \/
      (d !! opt = None /\ ConfigParser._defaults c !! opt = Some raw) ->
      r = result_bind
            (ConfigParser.before_get raw (d ∪ ConfigParser._defaults c))
            (fun s => Ok (VStr s)) /\
      (str_contains "%" raw = false -> r = Ok (VStr raw))).
Proof.
  intros Hp c opt r. subst r. rewrite (ini_read_value_get _ _ _ _ _ Hp).
  fold c. split; [|split].
  - intros Hs Hd. by apply get_no_section.
  - intros d Hs Ho Hdf. rewrite (get_in_section _ _ _ _ d Hs). fold opt.
    by rewrite (proj2 (lookup_union_None d _ opt) (conj Ho Hdf)).
  - intros d raw Hs Ho. rewrite (get_in_section _ _ _ _ d Hs). fold opt.
    assert ((d ∪ ConfigParser._defaults c) !! opt = Some raw) as ->.
    { destruct Ho as [Ho|[Ho Hdf]].
      - by apply lookup_union_Some_l.
      - by rewrite lookup_union_r. }
    split; [done|]. intros Hraw. by rewrite before_get_plain.
Qed.

Lemma C4_ini_read_value_witness :
  let self := Sample.ini [("db", [("host", "localhost")])] [("port", "5432")] in
  (IniStore.read_value "cache.host" (VStr "D") self).1 = Ok (VStr "D") /\
  (IniStore.read_value "db.user" (VStr "D") self).1 = Ok (VStr "D") /\
  (IniStore.read_value "db.host" (VStr "D") self).1 = Ok (VStr "localhost") /\
  (IniStore.read_value "db.PORT" (VStr "D") self).1 = Ok (VStr "5432").
Proof.
  intros self.
  pose proof (C4_ini_read_value self "cache.host" "cache" "host" (VStr "D")
                eq_refl) as (H1 & _ & _).
  pose proof (C4_ini_read_value self "db.user" "db" "user" (VStr "D")
                eq_refl) as (_ & H2 & _).
  pose proof (C4_ini_read_value self "db.host" "db" "host" (VStr "D")
                eq_refl) as (_ & _ & H3).
  pose proof (C4_ini_read_value self "db.PORT" "db" "PORT" (VStr "D")
                eq_refl) as (_ & _ & H4).
  split; [apply H1; [reflexivity|discriminate]|].
  split; [apply (H2 {["host" := "localhost"]}); reflexivity|].
  split.
  - apply (H3 {["host" := "localhost"]} "localhost");
      [reflexivity|left; reflexivity|reflexivity].
  - apply (H4 {["host" := "localhost"]} "5432");
      [reflexivity|right; split; reflexivity|reflexivity].
Defined.

(** ** [IniStore.write_value] *)

(** C5, as stated, fails in both halves.  With the section present, the
    value ["50%"] is refused ([ValueError]: a lone percent sign is no valid
    interpolation syntax).  With no section of the key's name in the
    document, a key whose section part is empty or [DEFAULT] is written
    into the defaults. *)
Lemma C5_counterexample :
  (ConfigParser._sections
     (IniStore._config (Sample.ini [("sec", [])] [])) !! "sec" = Some ∅ /\
   (IniStore.write_value "sec.a" (VStr "50%")
      (Sample.ini [("sec", [])] [])).1 = Raise ValueError) /\
  (ConfigParser._sections
     (IniStore._config (Sample.ini [("sec", [])] [])) !! "" = None /\
   (IniStore.write_value ".a" (VStr "v") (Sample.ini [("sec", [])] [])).1
   = Ok tt /\
   ConfigParser._defaults
     (IniStore._config
        (IniStore.write_value ".a" (VStr "v")
           (Sample.ini [("sec", [])] [])).2) !! "a" = Some "v") /\
  (ConfigParser._sections
     (IniStore._config (Sample.ini [("sec", [])] [])) !! "DEFAULT" = None /\
   (IniStore.write_value "DEFAULT.a" (VStr "v")
      (Sample.ini [("sec", [])] [])).1 = Ok tt).
Proof. repeat split; by vm_compute. Qed.

(** C5, amended.  For a key that splits into [sec] and [field]:
    - when [sec] is not a section of the parser, and is neither empty nor
      the name [DEFAULT], [write_value] raises and the parser is left as it
      was;
    - when [sec] is a section of a well-formed parser and the string form
      of the value passes the interpolation-syntax check of [before_set]
      (as every string without a percent sign does), [write_value] succeeds
      and the parser afterwards holds that string under the lower-cased
      field of [sec], everything else as before. *)
Theorem C5_ini_write_value (self : IniStore.t) key sec field v :
  IniStore._parse_key key = Ok (sec, field) ->
  let c := IniStore._config self in
  let after := IniStore.write_value key v self in
  (ConfigParser._sections c !! sec = None ->
   sec <> "" -> sec <> ConfigParser.DEFAULTSECT ->
   (exists e, after.1 = Raise e) /\ IniStore._config after.2 = c) /\
  (forall d,
      ConfigParser.wf c ->
      ConfigParser._sections c !! sec = Some d ->
      ConfigParser.before_set (py_str v) = Ok (py_str v) ->
      after.1 = Ok tt /\
      IniStore._config after.2 =
        {| ConfigParser._sections :=
             <[sec := <[ConfigParser.optionxform field := py_str v]> d]>
               (ConfigParser._sections c);
           ConfigParser._defaults := ConfigParser._defaults c |}) /\
  (str_contains "%" (py_str v) = false ->
   ConfigParser.before_set (py_str v) = Ok (py_str v)).
Proof.
  intros Hp c after.
  destruct (ini_write_value_set key sec field v self Hp) as [Hr Hc].
  fold after in Hr, Hc. fold c in Hr, Hc. split; [|split].
  - intros Hs H1 H2.
    destruct (set_no_section c sec field (py_str v) Hs H1 H2) as [e He].
    rewrite He in Hr, Hc. split; [by exists e|done].
  - intros d [Hw1 Hw2] Hs Hv.
    assert (sec <> "") as H1 by (intros ->; congruence).
    assert (sec <> ConfigParser.DEFAULTSECT) as H2 by (intros ->; congruence).
    rewrite (set_in_section _ _ _ _ d Hs H1 H2 Hv) in Hr, Hc. done.
  - apply before_set_plain.
Qed.

Lemma C5_ini_write_value_witness :
  let self := Sample.ini [("db", [("host", "localhost")])] [] in
  ((exists e, (IniStore.write_value "cache.ttl" (VInt 60) self).1 = Raise e) /\
   IniStore._config (IniStore.write_value "cache.ttl" (VInt 60) self).2
   = IniStore._config self) /\
  (IniStore.write_value "db.Port" (VInt 5432) self).1 = Ok tt /\
  ConfigParser._sections
    (IniStore._config (IniStore.write_value "db.Port" (VInt 5432) self).2)
    !! "db" = Some {["host" := "localhost"; "port" := "5432"]}.
Proof.
  intros self.
  pose proof (C5_ini_write_value self "cache.ttl" "cache" "ttl" (VInt 60)
                eq_refl) as (H1 & _ & _).
  pose proof (C5_ini_write_value self "db.Port" "db" "Port" (VInt 5432)
                eq_refl) as (_ & H2 & _).
  split; [apply H1; [reflexivity|discriminate|discriminate]|].
  destruct (H2 {["host" := "localhost"]}) as [Hr Hc];
    [split; reflexivity|reflexivity|reflexivity|].
  split; [exact Hr|]. rewrite Hc. by vm_compute.
Defined.

(** ** The frame of a write *)

Lemma set_Ok_inv c sec opt val c' :
  ConfigParser.set sec opt val c = (Ok tt, c') ->
  ((sec = "" \/ sec = ConfigParser.DEFAULTSECT) /\
   c' = {| ConfigParser._sections := ConfigParser._sections c;
           ConfigParser._defaults :=
             <[ConfigParser.optionxform opt := val]>
               (ConfigParser._defaults c) |}) \/
  (sec <> "" /\ sec <> ConfigParser.DEFAULTSECT /\
   exists d,
     ConfigParser._sections c !! sec = Some d /\
     c' = {| ConfigParser._sections :=
               <[sec := <[ConfigParser.optionxform opt := val]> d]>
                 (ConfigParser._sections c);
             ConfigParser._defaults := ConfigParser._defaults c |}).
Proof.
  unfold ConfigParser.set.
  destruct (if bool_decide (val = "") then Ok val else ConfigParser.before_set val)
    as [val'|] eqn:Hv; [|done].
  assert (val' = val) as ->.
  { case_bool_decide; [congruence|]. unfold ConfigParser.before_set in Hv.
    destruct (str_contains _ _); congruence. }
  clear Hv. case_bool_decide as Hd.
  - intros [= <-]. by left.
  - destruct (ConfigParser._sections c !! sec) as [d|] eqn:Hs; [|done].
    intros [= <-]. right. split; [naive_solver|]. split; [naive_solver|].
    by exists d.
Qed.

(** A write into another named section is invisible from [sec']. *)
Lemma set_unify_other_section c sec opt val c' sec' :
  ConfigParser.set sec opt val c = (Ok tt, c') ->
  sec' <> sec -> sec <> "" -> sec <> ConfigParser.DEFAULTSECT ->
  ConfigParser._unify_values c' sec' = ConfigParser._unify_values c sec'.
Proof.
  intros [[[?|?] _]|(_ & _ & d & Hs & ->)]%set_Ok_inv Hne H1 H2; try done.
  unfold ConfigParser._unify_values. simpl. by rewrite lookup_insert_ne.
Qed.

(** A write of one option is invisible at every other option. *)
Lemma set_unify_other_option c sec opt val c' sec' opt' :
  ConfigParser.set sec opt val c = (Ok tt, c') ->
  opt' <> ConfigParser.optionxform opt ->
  match ConfigParser._unify_values c' sec', ConfigParser._unify_values c sec' with
  | Ok d', Ok d => d' !! opt' = d !! opt'
  | Raise e', Raise e => e' = e
  | _, _ => False
  end.
Proof.
  intros [[_ ->]|(_ & _ & d & Hs & ->)]%set_Ok_inv Hne;
    unfold ConfigParser._unify_values; simpl.
  - destruct (ConfigParser._sections c !! sec') as [d'|].
    + rewrite !lookup_union. by rewrite lookup_insert_ne.
    + case_decide; [done|]. rewrite !lookup_union. by rewrite lookup_insert_ne.
  - destruct (decide (sec' = sec)) as [->|Hsec].
    + rewrite lookup_insert_eq, Hs. rewrite !lookup_union.
      by rewrite lookup_insert_ne.
    + rewrite lookup_insert_ne by done.
      destruct (ConfigParser._sections c !! sec'); [done|]. by case_decide.
Qed.

(** C10, as stated, fails on an [IniStore]: the keys ["sec.A"] and ["sec.a"]
    split into different pairs and name the same option, and a write to
    [DEFAULT] shows in every section that lacks the field. *)
Lemma C10_counterexample :
  (IniStore._parse_key "sec.A" = Ok ("sec", "A") /\
   IniStore._parse_key "sec.a" = Ok ("sec", "a") /\
   ("sec", "A") <> ("sec", "a") /\
   (IniStore.write_value "sec.A" (VStr "new")
      (Sample.ini [("sec", [("a", "old")])] [])).1 = Ok tt /\
   (IniStore.read_value "sec.a" VNone
      (Sample.ini [("sec", [("a", "old")])] [])).1 = Ok (VStr "old") /\
   (IniStore.read_value "sec.a" VNone
      (IniStore.write_value "sec.A" (VStr "new")
         (Sample.ini [("sec", [("a", "old")])] [])).2).1 = Ok (VStr "new")) /\
  (IniStore._parse_key "DEFAULT.x" = Ok ("DEFAULT", "x") /\
   IniStore._parse_key "sec.x" = Ok ("sec", "x") /\
   (IniStore.write_value "DEFAULT.x" (VStr "new")
      (Sample.ini [("sec", [])] [])).1 = Ok tt /\
   (IniStore.read_value "sec.x" VNone
      (Sample.ini [("sec", [])] [])).1 = Ok VNone /\
   (IniStore.read_value "sec.x" VNone
      (IniStore.write_value "DEFAULT.x" (VStr "new")
         (Sample.ini [("sec", [])] [])).2).1 = Ok (VStr "new")).
Proof. repeat split; by vm_compute. Qed.

Lemma get_frame_section c sec opt val c' sec' opt' fb :
  ConfigParser.set sec opt val c = (Ok tt, c') ->
  sec' <> sec -> sec <> "" -> sec <> ConfigParser.DEFAULTSECT ->
  ConfigParser.get c' sec' opt' fb = ConfigParser.get c sec' opt' fb.
Proof.
  intros Hset Hne H1 H2. unfold ConfigParser.get.
  by rewrite (set_unify_other_section _ _ _ _ _ _ Hset Hne H1 H2).
Qed.

Lemma get_frame_option c sec opt val c' sec' opt' fb :
  ConfigParser.set sec opt val c = (Ok tt, c') ->
  ConfigParser.optionxform opt' <> ConfigParser.optionxform opt ->
  (forall d raw,
      ConfigParser._unify_values c sec' = Ok d ->
      d !! ConfigParser.optionxform opt' = Some raw ->
      str_contains "%" raw = false) ->
  ConfigParser.get c' sec' opt' fb = ConfigParser.get c sec' opt' fb.
Proof.
  intros Hset Hne Hplain.
  pose proof (set_unify_other_option _ _ _ _ _ sec' _ Hset Hne) as Hu.
  unfold ConfigParser.get.
  destruct (ConfigParser._unify_values c' sec') as [d'|e'],
           (ConfigParser._unify_values c sec') as [d|e] eqn:Hd;
    try done; [|by subst].
  rewrite Hu. destruct (d !! ConfigParser.optionxform opt') as [raw|] eqn:Hr;
    [|done].
  by rewrite !before_get_plain by eauto.
Qed.

(** C10, amended.  Writing key [k] of a [MemoryStore] changes the entry of
    no other key, nor what [read_value] does for it.  A successful write of
    key [k] of an [IniStore] leaves [read_value k'] as it was
    - when the section of [k'] is not the section of [k], and the latter is
      a named section (not empty, not [DEFAULT]);
    - when the lower-cased field of [k'] is not that of [k], and the string
      stored for [k'], if any, has no percent sign. *)
Theorem C10_write_value_frame :
  (forall (self : MemoryStore.t) k v k' default,
      k <> k' ->
      MemoryStore._dict (MemoryStore.write_value k v self).2 !! k' =
        MemoryStore._dict self !! k' /\
      (MemoryStore.read_value k' default
         (MemoryStore.write_value k v self).2).1 =
        (MemoryStore.read_value k' default self).1) /\
  (forall (self : IniStore.t) k v sec field k' sec' field' default,
      IniStore._parse_key k = Ok (sec, field) ->
      IniStore._parse_key k' = Ok (sec', field') ->
      (IniStore.write_value k v self).1 = Ok tt ->
      (sec' <> sec /\ sec <> "" /\ sec <> ConfigParser.DEFAULTSECT) \/
      (ConfigParser.optionxform field' <> ConfigParser.optionxform field /\
       forall d raw,
         ConfigParser._unify_values (IniStore._config self) sec' = Ok d ->
         d !! ConfigParser.optionxform field' = Some raw ->
         str_contains "%" raw = false) ->
      (IniStore.read_value k' default (IniStore.write_value k v self).2).1 =
        (IniStore.read_value k' default self).1).
Proof.
  split.
  - intros self k v k' default Hne.
    split; [by apply memory_write_value_frame|done].
  - intros self k v sec field k' sec' field' default Hp Hp' Hok Hcase.
    destruct (ini_write_value_set k sec field v self Hp) as [Hr Hc].
    rewrite Hok in Hr.
    rewrite !(ini_read_value_get _ _ _ _ _ Hp'), Hc.
    destruct (ConfigParser.set sec field (py_str v) (IniStore._config self))
      as [r c'] eqn:Hset.
    simpl in Hr. subst r. simpl.
    destruct Hcase as [(Hne & H1 & H2)|[Hne Hplain]].
    + by apply (get_frame_section _ _ _ _ _ _ _ _ Hset).
    + by apply (get_frame_option _ _ _ _ _ _ _ _ Hset).
Qed.

Lemma C10_write_value_frame_witness :
  let self :=
    Sample.ini [("db", [("host", "localhost"); ("url", "%(host)s/x")]);
                ("cache", [("host", "%(ttl)s")])] [("ttl", "60")] in
  (IniStore.read_value "cache.host" VNone
     (IniStore.write_value "db.host" (VStr "example.org") self).2).1 =
    (IniStore.read_value "cache.host" VNone self).1 /\
  (IniStore.read_value "db.ttl" VNone
     (IniStore.write_value "db.host" (VStr "example.org") self).2).1 =
    (IniStore.read_value "db.ttl" VNone self).1.
Proof.
  intros self. split.
  - apply (proj2 C10_write_value_frame self "db.host" (VStr "example.org")
             "db" "host" "cache.host" "cache" "host" VNone);
      [reflexivity|reflexivity|by vm_compute|].
    left. repeat split; discriminate.
  - apply (proj2 C10_write_value_frame self "db.host" (VStr "example.org")
             "db" "host" "db.ttl" "db" "ttl" VNone);
      [reflexivity|reflexivity|by vm_compute|].
    right. split; [discriminate|].
    intros d raw [= <-]. vm_compute. by intros [= <-].
Defined.

(** ** The typed readers of the contract *)

(** Name the outcome of the [read_value] call in the goal, and replace it
    by what the hypothesis [H] says it is. *)
Ltac read_value_is H :=
  match goal with
  | |- context [ConfigStore.read_value ?k ?d ?s] =>
      let r := fresh "r" in
      let st := fresh "st" in
      destruct (ConfigStore.read_value k d s) as [r st];
      simpl in H; subst r; simpl
  end.

(** C6.  For any store, with [raw] the outcome of the [read_value(key)]
    call that a typed reader of the contract makes:
    - when [raw] is [None], [read_int_value], [read_float_value] and
      [read_bool_value] return the caller's default as it is, and no
      conversion is attempted;
    - when [raw] is a value that [int] (or [float]) rejects, the exception
      of the conversion reaches the caller, whatever the default;
    - [read_bool_value] compares with ["1"] and so rejects nothing. *)
Theorem C6_contract_typed_readers `{PyBuiltins} `{ConfigStore.Subclass Self}
    (self : Self) (key : string) :
  let raw msg :=
    (ConfigStore.read_value key VNone
       (ConfigStore.debug msg [key] self).2).1 in
  (raw "Reading %s as Int" = Ok VNone ->
   forall d, (ConfigStore.read_int_value key d self).1 = Ok d) /\
  (raw "Reading %s as Float" = Ok VNone ->
   forall d, (ConfigStore.read_float_value key d self).1 = Ok d) /\
  (raw "Reading %s as Bool" = Ok VNone ->
   forall d, (ConfigStore.read_bool_value key d self).1 = Ok d) /\
  (forall v e,
      raw "Reading %s as Int" = Ok v -> v <> VNone -> py_int v = Raise e ->
      forall d, (ConfigStore.read_int_value key d self).1 = Raise e) /\
  (forall v e,
      raw "Reading %s as Float" = Ok v -> v <> VNone -> py_float v = Raise e ->
      forall d, (ConfigStore.read_float_value key d self).1 = Raise e) /\
  (forall v z,
      raw "Reading %s as Int" = Ok v -> v <> VNone -> py_int v = Ok z ->
      forall d, (ConfigStore.read_int_value key d self).1 = Ok (Some z)) /\
  (forall v x,
      raw "Reading %s as Float" = Ok v -> v <> VNone -> py_float v = Ok x ->
      forall d, (ConfigStore.read_float_value key d self).1 = Ok (Some x)) /\
  (forall v,
      raw "Reading %s as Bool" = Ok v -> v <> VNone ->
      forall d, (ConfigStore.read_bool_value key d self).1 = Ok (eq_str v "1")).
Proof.
  intros raw. subst raw.
  unfold ConfigStore.read_int_value, ConfigStore.read_float_value,
    ConfigStore.read_bool_value, bind, lift, ret. simpl.
  repeat split.
  - intros Hr d. by read_value_is Hr.
  - intros Hr d. by read_value_is Hr.
  - intros Hr d. by read_value_is Hr.
  - intros v e Hr Hv He d. read_value_is Hr.
    destruct v; try done; simpl; by rewrite He.
  - intros v e Hr Hv He d. read_value_is Hr.
    destruct v; try done; simpl; by rewrite He.
  - intros v z Hr Hv Hz d. read_value_is Hr.
    destruct v; try done; simpl; by rewrite Hz.
  - intros v x Hr Hv Hx d. read_value_is Hr.
    destruct v; try done; simpl; by rewrite Hx.
  - intros v Hr Hv d. read_value_is Hr. by destruct v.
Qed.

Lemma C6_contract_typed_readers_witness :
  let self :=
    Sample.ini [("db", [("port", "5432"); ("host", "localhost")])] [] in
  (@ConfigStore.read_int_value Sample.builtins _ IniStore.subclass
     "db.user" (Some 7) self).1 = Ok (Some 7) /\
  (@ConfigStore.read_int_value Sample.builtins _ IniStore.subclass
     "db.host" (Some 7) self).1 = Raise ValueError /\
  (@ConfigStore.read_int_value Sample.builtins _ IniStore.subclass
     "db.port" (Some 7) self).1 = Ok (Some 5432) /\
  (@ConfigStore.read_bool_value _ IniStore.subclass
     "db.host" true self).1 = Ok false.
Proof.
  intros self.
  pose proof (@C6_contract_typed_readers Sample.builtins _ IniStore.subclass
                self "db.user") as (H1 & _).
  pose proof (@C6_contract_typed_readers Sample.builtins _ IniStore.subclass
                self "db.host") as (_ & _ & _ & H2 & _ & _ & _ & H4).
  pose proof (@C6_contract_typed_readers Sample.builtins _ IniStore.subclass
                self "db.port") as (_ & _ & _ & _ & _ & H3 & _).
  split; [apply H1; by vm_compute|].
  split; [apply (H2 (VStr "localhost")); [by vm_compute|discriminate|reflexivity]|].
  split; [apply (H3 (VStr "5432")); [by vm_compute|discriminate|reflexivity]|].
  apply (H4 (VStr "localhost")); [by vm_compute|discriminate].
Defined.

(** ** Booleans *)

Lemma get_found c sec opt fb d raw :
  ConfigParser._sections c !! sec = Some d ->
  (d ∪ ConfigParser._defaults c) !! ConfigParser.optionxform opt = Some raw ->
  str_contains "%" raw = false ->
  ConfigParser.get c sec opt fb = Ok (VStr raw).
Proof.
  intros Hs Hr Hp. unfold ConfigParser.get, ConfigParser._unify_values.
  rewrite Hs, Hr. by rewrite before_get_plain.
Qed.

Lemma getboolean_found c sec opt fb d raw :
  ConfigParser._sections c !! sec = Some d ->
  d !! ConfigParser.optionxform opt = Some raw ->
  str_contains "%" raw = false ->
  ConfigParser.getboolean c sec opt fb =
  ConfigParser._convert_to_boolean (VStr raw).
Proof.
  intros Hs Hr Hp. unfold ConfigParser.getboolean, ConfigParser._get_conv.
  by rewrite (get_found _ _ _ _ d raw Hs (lookup_union_Some_l _ _ _ _ Hr) Hp).
Qed.

(** C7.  The contract's [read_bool_value] returns true exactly when the
    string that [read_value] hands it is ["1"], and false for every other
    string.  [IniStore.read_bool_value] reads the stored strings ["yes"],
    ["true"] and ["1"] as true and ["no"], ["false"] and ["0"] as false. *)
Theorem C7_bool_parsing :
  (forall (Self : Type) (store : ConfigStore.Subclass Self) (self : Self)
          key default s,
      (ConfigStore.read_value key VNone
         (ConfigStore.debug "Reading %s as Bool" [key] self).2).1
      = Ok (VStr s) ->
      (ConfigStore.read_bool_value key default self).1
      = Ok (bool_decide (s = "1"))) /\
  (forall (self : IniStore.t) key sec field d raw default,
      IniStore._parse_key key = Ok (sec, field) ->
      ConfigParser._sections (IniStore._config self) !! sec = Some d ->
      d !! ConfigParser.optionxform field = Some raw ->
      (raw ∈ ["yes"; "true"; "1"] ->
       (IniStore.read_bool_value key default self).1 = Ok true) /\
      (raw ∈ ["no"; "false"; "0"] ->
       (IniStore.read_bool_value key default self).1 = Ok false)).
Proof.
  split.
  - intros Self store self key default s.
    unfold ConfigStore.read_bool_value, bind, ret. simpl.
    destruct (ConfigStore.read_value key VNone _) as [r st]. simpl.
    by intros ->.
  - intros self key sec field d raw default Hp Hs Hr.
    rewrite (ini_read_bool_value_get _ _ _ _ _ Hp).
    split; intros Hin;
      repeat (apply elem_of_cons in Hin as [->|Hin]);
      try (by apply elem_of_nil in Hin);
      by rewrite (getboolean_found _ _ _ _ d _ Hs Hr eq_refl).
Qed.

Lemma C7_bool_parsing_witness :
  let self :=
    Sample.ini [("ui", [("dark", "yes"); ("sound", "0"); ("beta", "1")])] [] in
  (IniStore.read_bool_value "ui.dark" false self).1 = Ok true /\
  (IniStore.read_bool_value "ui.sound" true self).1 = Ok false /\
  (@ConfigStore.read_bool_value _ IniStore.subclass "ui.dark" false self).1
  = Ok false /\
  (@ConfigStore.read_bool_value _ IniStore.subclass "ui.beta" false self).1
  = Ok true.
Proof.
  intros self.
  pose proof (proj2 C7_bool_parsing self "ui.dark" "ui" "dark"
                {["dark" := "yes"; "sound" := "0"; "beta" := "1"]} "yes" false
                eq_refl eq_refl eq_refl) as [H1 _].
  pose proof (proj2 C7_bool_parsing self "ui.sound" "ui" "sound"
                {["dark" := "yes"; "sound" := "0"; "beta" := "1"]} "0" true
                eq_refl eq_refl eq_refl) as [_ H2].
  split; [apply H1; set_solver|]. split; [apply H2; set_solver|].
  split.
  - apply (proj1 C7_bool_parsing _ IniStore.subclass self "ui.dark" false "yes").
    by vm_compute.
  - apply (proj1 C7_bool_parsing _ IniStore.subclass self "ui.beta" false "1").
    by vm_compute.
Defined.

(** ** [RedisStore.__init__] *)

(** C8.  For any client library, [RedisStore.__init__] takes one of three
    ways, in this order:
    - a client that the caller passes becomes the store's client, whatever
      the URL and the other parameters are, and no other client is made
      (the construction succeeds even in a library that can make none);
    - without a client, a non-empty URL is handed to [Redis.from_url], and
      its client (or its exception) is the outcome;
    - without a client and without a (non-empty) URL, the client is made
      from host, port, db and password, which a call without arguments
      leaves at 127.0.0.1, 6379, 0 and no password. *)
Theorem C8_redis_construction_priority :
  (forall (lib : RedisLib) (a : RedisStore.args) r,
      RedisStore.redis a = Some r ->
      exists log,
        RedisStore.__init__ a =
        Ok {| RedisStore._log := log; RedisStore._redis := r |}) /\
  (forall (lib : RedisLib) (a : RedisStore.args) u,
      RedisStore.redis a = None ->
      RedisStore.url a = Some u -> u <> "" ->
      exists log,
        RedisStore.__init__ a =
        result_bind (Redis_from_url u) (fun r =>
        Ok {| RedisStore._log := log; RedisStore._redis := r |})) /\
  (forall (lib : RedisLib) (a : RedisStore.args),
      RedisStore.redis a = None ->
      RedisStore.url a = None \/ RedisStore.url a = Some "" ->
      exists log,
        RedisStore.__init__ a =
        result_bind
          (Redis_new (RedisStore.host a) (RedisStore.port a)
             (RedisStore.db a) (RedisStore.password a)) (fun r =>
        Ok {| RedisStore._log := log; RedisStore._redis := r |})) /\
  (forall (lib : RedisLib),
      exists log,
        RedisStore.__init__ RedisStore.defaults =
        result_bind (Redis_new "127.0.0.1" 6379 0 None) (fun r =>
        Ok {| RedisStore._log := log; RedisStore._redis := r |})) /\
  (exists log,
      RedisStore.__init__
        (Sample.redis_args (Some tt) (Some "redis://cache:6379/1")) =
      Ok (@RedisStore.Build_t Sample.no_redis log tt)).
Proof.
  repeat split.
  - intros lib a r Hr. unfold RedisStore.__init__. rewrite Hr. by eexists.
  - intros lib a u Hr Hu Hne. unfold RedisStore.__init__. rewrite Hr, Hu.
    simpl. rewrite bool_decide_eq_false_2 by done. by eexists.
  - intros lib a Hr Hu. unfold RedisStore.__init__. rewrite Hr.
    destruct Hu as [->| ->]; by eexists.
  - intros lib. by eexists.
  - by eexists.
Qed.

Lemma C8_redis_construction_priority_witness :
  (exists log,
      RedisStore.__init__
        (Sample.redis_args None (Some "redis://cache:6379/1")) =
      result_bind (@Redis_from_url Sample.no_redis "redis://cache:6379/1")
        (fun r => Ok (@RedisStore.Build_t Sample.no_redis log r))) /\
  (exists log,
      RedisStore.__init__ (Sample.redis_args None (Some "")) =
      result_bind (@Redis_new Sample.no_redis "10.0.0.1" 6380 2 (Some "pw"))
        (fun r => Ok (@RedisStore.Build_t Sample.no_redis log r))).
Proof.
  destruct C8_redis_construction_priority as (_ & H2 & H3 & _).
  split.
  - apply (H2 Sample.no_redis _ "redis://cache:6379/1");
      [reflexivity|reflexivity|discriminate].
  - apply (H3 Sample.no_redis); [reflexivity|by right].
Defined.

(** * Further properties *)

(** ** [MemoryStore]: runs of writes *)

(** X1.  [MemoryStore.write_value] never raises, and after any run of
    writes the dictionary holds, for each key, the value of the last write
    to it, as it was given (not its string form); keys that were not
    written keep their entries. *)
Theorem memory_write_value_runs (self : MemoryStore.t)
    (writes : list (string * value)) :
  let run := foldl (fun st kv => (MemoryStore.write_value kv.1 kv.2 st).2) in
  (forall st k v, (MemoryStore.write_value k v st).1 = Ok tt) /\
  MemoryStore._dict (run self writes) =
    list_to_map (reverse writes) ∪ MemoryStore._dict self /\
  (forall k v rest,
      writes = (rest ++ [(k, v)])%list ->
      MemoryStore._dict (run self writes) !! k = Some v) /\
  (forall k,
      k ∉ writes.*1 ->
      MemoryStore._dict (run self writes) !! k = MemoryStore._dict self !! k).
Proof.
  intros run.
  assert (forall l st,
             MemoryStore._dict (run st l) =
             list_to_map (reverse l) ∪ MemoryStore._dict st) as Hrun.
  { induction l as [|[k v] l IH]; intros st.
    - simpl. by rewrite (left_id_L ∅ (∪)).
    - simpl. rewrite IH, reverse_cons, list_to_map_app. simpl.
      rewrite <- (assoc_L (∪)). f_equal.
      rewrite insert_empty. by rewrite <- insert_union_singleton_l. }
  split; [done|]. split; [apply Hrun|]. split.
  - intros k v rest ->. rewrite Hrun, reverse_app. simpl.
    apply lookup_union_Some_l, lookup_insert_eq.
  - intros k Hk. rewrite Hrun. apply lookup_union_r.
    apply not_elem_of_list_to_map_1. by rewrite fmap_reverse, elem_of_reverse.
Qed.

(** ** [os.path.basename] *)

Lemma str_rfind_None c s : str_rfind c s = None <-> str_find c s = None.
Proof.
  induction s as [|a s IH]; simpl; [done|].
  destruct (decide (a = c)).
  - destruct (str_rfind c s); split; done.
  - rewrite fmap_None, <- IH. destruct (str_rfind c s); split; done.
Qed.

Lemma str_rfind_drop c s i :
  str_rfind c s = Some i -> str_find c (str_drop (i + 1) s) = None.
Proof.
  revert i. induction s as [|a s IH]; intros i; simpl; [done|].
  destruct (str_rfind c s) as [j|] eqn:Hj.
  - intros [= <-]. by apply IH.
  - destruct (decide (a = c)); [|done]. intros [= <-]. simpl.
    by apply str_rfind_None.
Qed.

Lemma str_rfind_app_last c s r :
  str_find c r = None ->
  str_rfind c (s +:+ String c r) = Some (String.length s).
Proof.
  intros Hr%str_rfind_None. induction s as [|a s IH].
  - simpl. rewrite Hr. by rewrite decide_True.
  - rewrite append_String. simpl. by rewrite IH.
Qed.

(** X2.  [basename] keeps what follows the last slash: the result has no
    slash, the path is some directory part (empty, or ending in a slash)
    followed by the result, and the base name of [dir/name] is [name]
    whenever [name] has no slash.  A path that ends in a slash has the
    empty base name. *)
Theorem basename_last_component :
  (forall p, str_contains "/" (basename p) = false) /\
  (forall p, exists dir,
      p = dir +:+ basename p /\
      (dir = "" <-> str_contains "/" p = false)) /\
  (forall dir name,
      str_contains "/" name = false ->
      basename (dir +:+ "/" +:+ name) = name) /\
  (forall dir, basename (dir +:+ "/") = "").
Proof.
  split; [|split; [|split]].
  - intros p. apply str_contains_false. unfold basename.
    destruct (str_rfind "/" p) as [j|] eqn:Hj.
    + by apply str_rfind_drop.
    + simpl. destruct p; by apply str_rfind_None.
  - intros p. unfold basename.
    destruct (str_rfind "/" p) as [j|] eqn:Hj.
    + exists (str_take (j + 1) p). split.
      * clear Hj. generalize (j + 1)%nat as n. intros n. revert n.
        induction p as [|a p IH]; intros [|n]; simpl; try done.
        rewrite append_String. by rewrite <- IH.
      * split.
        -- destruct p as [|a p]; [done|].
           by replace (j + 1)%nat with (S j) by lia.
        -- intros Hc%str_contains_false%str_rfind_None. congruence.
    + exists "". split; [by destruct p|]. split; [|done].
      intros _. by apply str_contains_false, str_rfind_None.
  - intros dir name Hn%str_contains_false. unfold basename.
    change (dir +:+ "/" +:+ name) with (dir +:+ String "/" name).
    rewrite (str_rfind_app_last _ _ _ Hn). apply str_drop_app_cons.
  - intros dir. change (dir +:+ "/") with (dir +:+ String "/" "").
    unfold basename. rewrite (str_rfind_app_last "/" dir "" eq_refl).
    apply str_drop_app_cons.
Qed.

(** ** Construction and saving of an [IniStore] *)

Lemma ini_init_inv load p ln self :
  IniStore.__init__ load p ln = Ok self ->
  exists c,
    load p = Ok c /\
    self =
      {| IniStore._log :=
           Logger.info "Read configuration successfully" []
             (Logger.info "Reading configuration from %s ..." [p]
                (ConfigStore.__init__ "IniStore"
                   (if truthy ln then ln else Some (basename p))));
         IniStore._config := c;
         IniStore._file_path := p |}.
Proof.
  unfold IniStore.__init__, IniStore._load_config, bind, lift, modify, ret.
  destruct (load p) as [c|e]; [|done]. intros [= <-]. by exists c.
Qed.

(** X3.  The logger of a new [IniStore] is named by the caller's
    [logger_name] when that is a non-empty string, else by the base name of
    the INI file, else (the path ends in a slash) by the class name; the
    name is never empty. *)
Theorem ini_init_logger_name load p ln self :
  IniStore.__init__ load p ln = Ok self ->
  let name := Logger.name (IniStore._log self) in
  (forall n, ln = Some n -> n <> "" -> name = Some n) /\
  (ln = None \/ ln = Some "" ->
   (basename p <> "" -> name = Some (basename p)) /\
   (basename p = "" -> name = Some "IniStore")) /\
  (exists n, name = Some n /\ n <> "").
Proof.
  intros (c & _ & ->)%ini_init_inv. simpl.
  unfold ConfigStore.__init__. simpl.
  destruct ln as [n|]; simpl.
  - destruct (decide (n = "")) as [->|Hn].
    + simpl. destruct (decide (basename p = "")) as [Hb|Hb].
      * rewrite Hb. simpl. split; [by intros ? [= <-]|].
        split; [done|]. by exists "IniStore".
      * rewrite bool_decide_eq_false_2 by done. simpl.
        split; [by intros ? [= <-]|]. split; [done|]. by eexists.
    + rewrite bool_decide_eq_false_2 by done. simpl.
      rewrite bool_decide_eq_false_2 by done. simpl.
      split; [by intros ? [= <-]|]. split; [by intros [|[= ]]|]. by eexists.
  - destruct (decide (basename p = "")) as [Hb|Hb].
    + rewrite Hb. simpl. split; [done|]. split; [done|]. by exists "IniStore".
    + rewrite bool_decide_eq_false_2 by done. simpl.
      split; [done|]. split; [done|]. by eexists.
Qed.

Lemma ini_init_logger_name_witness :
  exists self,
    IniStore.__init__ (fun _ => Ok (Sample.parser [("db", [])] []))
      "/etc/carpi/settings.ini" None = Ok self /\
    Logger.name (IniStore._log self) = Some "settings.ini".
Proof.
  eexists. split; [reflexivity|].
  refine (proj1 (proj1 (proj2 (ini_init_logger_name
                                 (fun _ => Ok (Sample.parser [("db", [])] []))
                                 "/etc/carpi/settings.ini" None _ eq_refl))
                   (or_introl eq_refl)) _).
  by vm_compute.
Defined.




(** ** The logger of a [RedisStore] *)

(** X6.  The logger of a new [RedisStore] is named by the first of these
    that is a non-empty string: the caller's [logger_name], the URL,
    ["Redis "] followed by the host; with none of them, by the class name.
    The name is never empty. *)
Theorem redis_init_logger_name `{RedisLib} (a : RedisStore.args)
    (self : RedisStore.t) :
  RedisStore.__init__ a = Ok self ->
  let name := Logger.name (RedisStore._log self) in
  (truthy (RedisStore.logger_name a) = true ->
   name = RedisStore.logger_name a) /\
  (truthy (RedisStore.logger_name a) = false ->
   (truthy (RedisStore.url a) = true -> name = RedisStore.url a) /\
   (truthy (RedisStore.url a) = false ->
    (RedisStore.host a <> "" ->
     name = Some ("Redis " +:+ RedisStore.host a)) /\
    (RedisStore.host a = "" -> name = Some "RedisStore"))) /\
  (exists n, name = Some n /\ n <> "").
Proof.
  unfold RedisStore.__init__.
  destruct (match RedisStore.redis a with
            | Some r => Ok r
            | None => _
            end) as [r|e]; [|done].
  simpl. intros [= <-]. simpl.
  unfold ConfigStore.__init__, RedisStore.log_name. simpl.
  destruct (truthy (RedisStore.logger_name a)) eqn:Hl.
  { rewrite Hl. simpl. split; [done|]. split; [done|].
    destruct (RedisStore.logger_name a) as [n|]; [|done].
    exists n. split; [done|]. simpl in Hl. by case_bool_decide. }
  destruct (truthy (RedisStore.url a)) eqn:Hu.
  { rewrite Hu. simpl. split; [done|]. split; [by split|].
    destruct (RedisStore.url a) as [n|]; [|done].
    exists n. split; [done|]. simpl in Hu. by case_bool_decide. }
  destruct (decide (RedisStore.host a = "")) as [Hh|Hh].
  - rewrite Hh. simpl. split; [done|]. split; [|by eexists].
    intros _. split; [done|]. intros _. by split.
  - rewrite bool_decide_eq_false_2 by done. simpl.
    split; [done|]. split; [|by eexists].
    intros _. split; [done|]. intros _. by split.
Qed.

Lemma redis_init_logger_name_witness :
  exists self,
    RedisStore.__init__ (Sample.redis_args (Some tt) None) = Ok self /\
    Logger.name (RedisStore._log self) = Some "Redis 10.0.0.1".
Proof.
  eexists. split; [reflexivity|].
  refine (proj1 (proj2 (proj1 (proj2
            (@redis_init_logger_name Sample.no_redis
               (Sample.redis_args (Some tt) None) _ eq_refl))
            eq_refl) eq_refl) _).
  discriminate.
Defined.

(** ** [IniStore]: what the accessors leave alone *)

(** X7.  On a key without a dot every accessor of an [IniStore] raises
    [ValueError] before it logs or looks at the parser: the store is left
    exactly as it was, and no default is returned. *)
Theorem ini_malformed_key `{PyBuiltins} (self : IniStore.t) key :
  str_contains "." key = false ->
  (forall d, IniStore.read_value key d self = (Raise ValueError, self)) /\
  (forall d, IniStore.read_int_value key d self = (Raise ValueError, self)) /\
  (forall d, IniStore.read_float_value key d self = (Raise ValueError, self)) /\
  (forall d, IniStore.read_bool_value key d self = (Raise ValueError, self)) /\
  (forall v, IniStore.write_value key v self = (Raise ValueError, self)).
Proof.
  intros Hp%parse_key_Raise.
  unfold IniStore.read_value, IniStore.read_int_value,
    IniStore.read_float_value, IniStore.read_bool_value,
    IniStore.write_value, bind, lift.
  by rewrite Hp.
Qed.

Lemma ini_malformed_key_witness :
  IniStore.read_value "nosep" (VStr "D") (Sample.ini [("nosep", [])] [])
  = (Raise ValueError, Sample.ini [("nosep", [])] []).
Proof.
  apply (@ini_malformed_key Sample.builtins
           (Sample.ini [("nosep", [])] []) "nosep" eq_refl).
Defined.

(** X8.  A [write_value] that raises, for whatever reason (a key without a
    dot, a value that is no valid interpolation syntax, an unknown
    section), leaves the parser and the path of the store as they were. *)
Theorem ini_write_value_failure_atomic (self : IniStore.t) key v e :
  (IniStore.write_value key v self).1 = Raise e ->
  IniStore._config (IniStore.write_value key v self).2 = IniStore._config self /\
  IniStore._file_path (IniStore.write_value key v self).2
  = IniStore._file_path self.
Proof.
  unfold IniStore.write_value, bind, lift, IniStore.on_config.
  destruct (IniStore._parse_key key) as [[sec field]|]; [|done]. simpl.
  destruct (ConfigParser.set sec field (py_str v) (IniStore._config self))
    as [[[]|e'] c'] eqn:Hset; [done|].
  simpl. intros _. split; [|done]. by apply set_Raise_unchanged in Hset.
Qed.

Lemma ini_write_value_failure_atomic_witness :
  IniStore._config
    (IniStore.write_value "db.size" (VStr "100%")
       (Sample.ini [("db", [("size", "1")])] [])).2
  = IniStore._config (Sample.ini [("db", [("size", "1")])] []).
Proof.
  apply (ini_write_value_failure_atomic
           (Sample.ini [("db", [("size", "1")])] []) "db.size" (VStr "100%")
           ValueError).
  by vm_compute.
Defined.

Lemma set_dom c sec opt val :
  dom (ConfigParser._sections (ConfigParser.set sec opt val c).2)
  = dom (ConfigParser._sections c).
Proof.
  unfold ConfigParser.set.
  destruct (if bool_decide (val = "") then Ok val else ConfigParser.before_set val);
    [|done].
  case_bool_decide; [done|].
  destruct (ConfigParser._sections c !! sec) as [d|] eqn:Hs; [|done].
  simpl. rewrite dom_insert_L.
  apply subseteq_union_1_L, singleton_subseteq_l, elem_of_dom. by exists d.
Qed.

Lemma ini_write_value_wf (self : IniStore.t) key v :
  ConfigParser.wf (IniStore._config self) ->
  ConfigParser.wf (IniStore._config (IniStore.write_value key v self).2).
Proof.
  destruct (IniStore._parse_key key) as [[sec field]|] eqn:Hp.
  - destruct (ini_write_value_set key sec field v self Hp) as [_ ->].
    apply set_wf.
  - unfold IniStore.write_value, bind, lift. by rewrite Hp.
Qed.

(** X9.  [write_value] never adds or removes a section: whatever the key
    and the value, and whether it returns or raises, the parser has the
    same section names afterwards; and a well-formed parser stays well
    formed. *)
Theorem ini_write_value_keeps_sections (self : IniStore.t) key v :
  dom (ConfigParser._sections
         (IniStore._config (IniStore.write_value key v self).2))
  = dom (ConfigParser._sections (IniStore._config self)) /\
  (ConfigParser.wf (IniStore._config self) ->
   ConfigParser.wf (IniStore._config (IniStore.write_value key v self).2)).
Proof.
  split; [|apply ini_write_value_wf].
  destruct (IniStore._parse_key key) as [[sec field]|] eqn:Hp.
  - destruct (ini_write_value_set key sec field v self Hp) as [_ ->].
    apply set_dom.
  - unfold IniStore.write_value, bind, lift. by rewrite Hp.
Qed.

(** X10.  The four readers of an [IniStore] leave its parser and its path
    as they are, whether they return or raise: reading only adds to the
    log. *)
Theorem ini_readers_read_only `{PyBuiltins} (self : IniStore.t) key :
  (forall d,
      IniStore._config (IniStore.read_value key d self).2
        = IniStore._config self /\
      IniStore._file_path (IniStore.read_value key d self).2
        = IniStore._file_path self) /\
  (forall d,
      IniStore._config (IniStore.read_int_value key d self).2
        = IniStore._config self /\
      IniStore._file_path (IniStore.read_int_value key d self).2
        = IniStore._file_path self) /\
  (forall d,
      IniStore._config (IniStore.read_float_value key d self).2
        = IniStore._config self /\
      IniStore._file_path (IniStore.read_float_value key d self).2
        = IniStore._file_path self) /\
  (forall d,
      IniStore._config (IniStore.read_bool_value key d self).2
        = IniStore._config self /\
      IniStore._file_path (IniStore.read_bool_value key d self).2
        = IniStore._file_path self).
Proof.
  unfold IniStore.read_value, IniStore.read_int_value,
    IniStore.read_float_value, IniStore.read_bool_value, bind, lift.
  destruct (IniStore._parse_key key) as [[sec field]|]; by repeat split.
Qed.

(** ** [IniStore]: percent signs and letter case *)

Lemma remove_percent_pairs_double s :
  str_contains "%" (remove_percent_pairs (double_percent s)) = false.
Proof.
  induction s as [|a s IH]; [done|]. simpl.
  destruct (decide (a = "%"%char)) as [->|Hne]; [exact IH|].
  rewrite remove_percent_pairs_other by done. by apply str_contains_cons.
Qed.

Lemma before_set_double s :
  ConfigParser.before_set (double_percent s) = Ok (double_percent s).
Proof.
  unfold ConfigParser.before_set.
  rewrite (keycre_sub_id _ (remove_percent_pairs_double s)).
  by rewrite remove_percent_pairs_double.
Qed.

Lemma before_get_double s map :
  ConfigParser.before_get (double_percent s) map = Ok s.
Proof.
  unfold ConfigParser.before_get. simpl.
  induction s as [|a s IH]; [done|]. simpl.
  destruct (decide (a = "%"%char)) as [->|Hne].
  - cbn [ConfigParser.interpolate_loop]. rewrite decide_True by done.
    by rewrite IH.
  - cbn [ConfigParser.interpolate_loop]. rewrite decide_False by done.
    by rewrite IH.
Qed.

Lemma chr_lower_idemp a : chr_lower (chr_lower a) = chr_lower a.
Proof. by destruct a as [[] [] [] [] [] [] [] []]. Qed.

Lemma optionxform_idemp s :
  ConfigParser.optionxform (ConfigParser.optionxform s)
  = ConfigParser.optionxform s.
Proof.
  unfold ConfigParser.optionxform. induction s as [|a s IH]; [done|].
  simpl. by rewrite chr_lower_idemp, IH.
Qed.

Lemma parse_key_lower sec field :
  str_contains "." sec = false ->
  IniStore._parse_key (sec +:+ "." +:+ ConfigParser.optionxform field)
  = Ok (sec, ConfigParser.optionxform field).
Proof. apply parse_key_app. Qed.

(** What a reader finds after a successful write into a section, under
    any spelling of the field. *)
Lemma ini_read_after_write (self : IniStore.t) key sec field v d key' field'
    default :
  IniStore._parse_key key = Ok (sec, field) ->
  IniStore._parse_key key' = Ok (sec, field') ->
  ConfigParser.optionxform field' = ConfigParser.optionxform field ->
  ConfigParser.wf (IniStore._config self) ->
  ConfigParser._sections (IniStore._config self) !! sec = Some d ->
  ConfigParser.before_set (py_str v) = Ok (py_str v) ->
  (IniStore.write_value key v self).1 = Ok tt /\
  (IniStore.read_value key' default (IniStore.write_value key v self).2).1
  = result_bind
      (ConfigParser.before_get (py_str v)
         (<[ConfigParser.optionxform field := py_str v]> d
          ∪ ConfigParser._defaults (IniStore._config self)))
      (fun s => Ok (VStr s)).
Proof.
  intros Hp Hp' Hf [Hw1 Hw2] Hd Hv.
  assert (sec <> "") as Hne1 by (intros ->; congruence).
  assert (sec <> ConfigParser.DEFAULTSECT) as Hne2 by (intros ->; congruence).
  destruct (ini_write_value_set key sec field v self Hp) as [Hr Hc].
  rewrite (set_in_section _ _ _ _ d Hd Hne1 Hne2 Hv) in Hr, Hc.
  split; [exact Hr|].
  rewrite (ini_read_value_get _ _ _ _ _ Hp'), Hc.
  erewrite get_in_section by (simpl; apply lookup_insert_eq).
  simpl. rewrite Hf.
  by erewrite lookup_union_Some_l by apply lookup_insert_eq.
Qed.

(** X11.  Doubling the percent signs makes any text storable: for every
    string [s], writing [s.replace("%", "%%")] under a key whose section
    exists succeeds, and reading the key returns [s] itself. *)
Theorem ini_escaped_write_then_read (self : IniStore.t) key sec field s :
  IniStore._parse_key key = Ok (sec, field) ->
  ConfigParser.wf (IniStore._config self) ->
  is_Some (ConfigParser._sections (IniStore._config self) !! sec) ->
  (IniStore.write_value key (VStr (double_percent s)) self).1 = Ok tt /\
  (IniStore.read_value key VNone
     (IniStore.write_value key (VStr (double_percent s)) self).2).1
  = Ok (VStr s).
Proof.
  intros Hp Hwf [d Hd].
  destruct (ini_read_after_write self key sec field (VStr (double_percent s))
              d key field VNone Hp Hp eq_refl Hwf Hd (before_set_double s))
    as [Hw Hr].
  split; [exact Hw|]. rewrite Hr. simpl. by rewrite before_get_double.
Qed.

Lemma ini_escaped_write_then_read_witness :
  (IniStore.read_value "ui.zoom" VNone
     (IniStore.write_value "ui.zoom" (VStr (double_percent "50% of %(w)s"))
        (Sample.ini [("ui", [])] [])).2).1
  = Ok (VStr "50% of %(w)s").
Proof.
  apply (ini_escaped_write_then_read (Sample.ini [("ui", [])] [])
           "ui.zoom" "ui" "zoom" "50% of %(w)s" eq_refl).
  - by split.
  - by eexists.
Defined.

(** X12.  Field names are case-insensitive: a value (without percent sign)
    written under [sec.field] is read back under every key of the same
    section whose field differs from [field] in letter case only, the
    all-lower-case key included. *)
Theorem ini_field_case_insensitive (self : IniStore.t) key sec field v
    key' field' :
  IniStore._parse_key key = Ok (sec, field) ->
  IniStore._parse_key key' = Ok (sec, field') ->
  str_lower field' = str_lower field ->
  ConfigParser.wf (IniStore._config self) ->
  is_Some (ConfigParser._sections (IniStore._config self) !! sec) ->
  str_contains "%" (py_str v) = false ->
  (IniStore.read_value key' VNone (IniStore.write_value key v self).2).1
    = Ok (VStr (py_str v)) /\
  (IniStore.read_value (sec +:+ "." +:+ str_lower field) VNone
     (IniStore.write_value key v self).2).1
    = Ok (VStr (py_str v)).
Proof.
  intros Hp Hp' Hf Hwf [d Hd] Hv.
  pose proof (proj1 (parse_key_Ok _ _ _ Hp)) as Hsec.
  split.
  - destruct (ini_read_after_write self key sec field v d key' field' VNone
                Hp Hp' Hf Hwf Hd (before_set_plain _ Hv)) as [_ ->].
    by rewrite before_get_plain.
  - destruct (ini_read_after_write self key sec field v d
                (sec +:+ "." +:+ str_lower field) (str_lower field) VNone
                Hp (parse_key_lower sec field Hsec) (optionxform_idemp field)
                Hwf Hd (before_set_plain _ Hv)) as [_ ->].
    by rewrite before_get_plain.
Qed.

Lemma ini_field_case_insensitive_witness :
  (IniStore.read_value "db.HOST" VNone
     (IniStore.write_value "db.Host" (VStr "example.org")
        (Sample.ini [("db", [])] [])).2).1
  = Ok (VStr "example.org").
Proof.
  apply (ini_field_case_insensitive (Sample.ini [("db", [])] [])
           "db.Host" "db" "Host" (VStr "example.org") "db.HOST" "HOST"
           eq_refl eq_refl eq_refl).
  - by split.
  - by eexists.
  - reflexivity.
Defined.

(** ** [IniStore]: how writes compose *)




(** ** [IniStore]: the default section *)

Lemma set_into_defaults c sec opt val :
  sec = ConfigParser.DEFAULTSECT \/ sec = "" ->
  str_contains "%" val = false ->
  ConfigParser.set sec opt val c =
  (Ok tt,
   {| ConfigParser._sections := ConfigParser._sections c;
      ConfigParser._defaults :=
        <[str_lower opt := val]> (ConfigParser._defaults c) |}).
Proof.
  intros Hsec Hv. unfold ConfigParser.set.
  replace (if bool_decide (val = "") then Ok val
           else ConfigParser.before_set val)
    with (Ok (A:=string) val)
    by (case_bool_decide; by rewrite ?before_set_plain).
  by rewrite bool_decide_eq_true_2 by tauto.
Qed.

(** X14.  A key whose section part is [DEFAULT] (or empty) is written into
    the defaults, whether or not the document has any section.  The value
    (without percent sign) is then read under that field in every section
    that does not hold the field itself, and, in a well-formed parser,
    under [DEFAULT]; a section that holds the field keeps reading its own
    string. *)
Theorem ini_default_section_inherited (self : IniStore.t) key sec field v :
  IniStore._parse_key key = Ok (sec, field) ->
  sec = ConfigParser.DEFAULTSECT \/ sec = "" ->
  str_contains "%" (py_str v) = false ->
  let after := (IniStore.write_value key v self).2 in
  (IniStore.write_value key v self).1 = Ok tt /\
  (forall key' sec' field' d default,
      IniStore._parse_key key' = Ok (sec', field') ->
      str_lower field' = str_lower field ->
      ConfigParser._sections (IniStore._config self) !! sec' = Some d ->
      (d !! str_lower field = None ->
       (IniStore.read_value key' default after).1 = Ok (VStr (py_str v))) /\
      (forall raw,
          d !! str_lower field = Some raw -> str_contains "%" raw = false ->
          (IniStore.read_value key' default after).1 = Ok (VStr raw))) /\
  (forall key' field' default,
      IniStore._parse_key key' = Ok (ConfigParser.DEFAULTSECT, field') ->
      str_lower field' = str_lower field ->
      ConfigParser.wf (IniStore._config self) ->
      (IniStore.read_value key' default after).1 = Ok (VStr (py_str v))).
Proof.
  intros Hp Hsec Hv after. subst after.
  destruct (ini_write_value_set key sec field v self Hp) as [Hr Hc].
  pose proof (set_into_defaults (IniStore._config self) sec field (py_str v)
                Hsec Hv) as Hset.
  rewrite Hset in Hr, Hc. simpl in Hr, Hc.
  split; [exact Hr|]. split.
  - intros key' sec' field' d default Hp' Hf Hd.
    rewrite (ini_read_value_get _ _ _ _ _ Hp'), Hc.
    rewrite (get_in_section _ _ _ _ d) by done. simpl.
    unfold ConfigParser.optionxform. rewrite Hf. split.
    + intros Hnone. rewrite lookup_union_r by done.
      rewrite lookup_insert_eq. by rewrite before_get_plain.
    + intros raw Hraw Hplain.
      rewrite (lookup_union_Some_l _ _ _ _ Hraw). by rewrite before_get_plain.
  - intros key' field' default Hp' Hf [_ Hw].
    rewrite (ini_read_value_get _ _ _ _ _ Hp'), Hc.
    unfold ConfigParser.get, ConfigParser._unify_values. simpl.
    rewrite Hw. unfold ConfigParser.optionxform. rewrite Hf.
    rewrite (left_id_L ∅ (∪)), lookup_insert_eq.
    by rewrite before_get_plain.
Qed.

Lemma ini_default_section_inherited_witness :
  let self := Sample.ini [("db", [("port", "1")]); ("ui", [])] [] in
  (IniStore.read_value "ui.Port" VNone
     (IniStore.write_value "DEFAULT.port" (VInt 80) self).2).1
    = Ok (VStr "80") /\
  (IniStore.read_value "db.port" VNone
     (IniStore.write_value "DEFAULT.port" (VInt 80) self).2).1
    = Ok (VStr "1").
Proof.
  intros self.
  destruct (ini_default_section_inherited self "DEFAULT.port" "DEFAULT" "port"
              (VInt 80) eq_refl (or_introl eq_refl) eq_refl) as (_ & H & _).
  split.
  - by apply (proj1 (H "ui.Port" "ui" "Port" ∅ VNone
                       eq_refl eq_refl eq_refl)).
  - by apply (proj2 (H "db.port" "db" "port" {["port" := "1"]} VNone
                       eq_refl eq_refl eq_refl) "1").
Defined.

(** X15.  In a well-formed parser a key with an empty section part, such
    as [".name"], always reads as the default, even right after a
    successful write to that very key (which went to the defaults). *)
Theorem ini_empty_section_write_only (self : IniStore.t) key field default :
  IniStore._parse_key key = Ok ("", field) ->
  ConfigParser.wf (IniStore._config self) ->
  (IniStore.read_value key default self).1 = Ok default /\
  (forall v,
      (IniStore.read_value key default (IniStore.write_value key v self).2).1
      = Ok default) /\
  (forall v,
      str_contains "%" (py_str v) = false ->
      (IniStore.write_value key v self).1 = Ok tt /\
      ConfigParser._defaults
        (IniStore._config (IniStore.write_value key v self).2)
        !! str_lower field = Some (py_str v)).
Proof.
  intros Hp Hwf.
  assert (forall st : IniStore.t,
             ConfigParser.wf (IniStore._config st) ->
             (IniStore.read_value key default st).1 = Ok default) as Hread.
  { intros st [Hw _]. rewrite (ini_read_value_get _ _ _ _ _ Hp).
    by apply get_no_section. }
  split; [by apply Hread|]. split.
  - intros v. apply Hread. by apply ini_write_value_wf.
  - intros v Hv.
    destruct (ini_write_value_set key "" field v self Hp) as [-> ->].
    rewrite (set_into_defaults _ "" field (py_str v) (or_intror eq_refl) Hv).
    split; [done|]. simpl. apply lookup_insert_eq.
Qed.

Lemma ini_empty_section_write_only_witness :
  (IniStore.read_value ".name" (VStr "D")
     (IniStore.write_value ".name" (VStr "x")
        (Sample.ini [("db", [])] [])).2).1
  = Ok (VStr "D").
Proof.
  apply (proj1 (proj2 (ini_empty_section_write_only
                         (Sample.ini [("db", [])] []) ".name" "name"
                         (VStr "D") eq_refl (conj eq_refl eq_refl)))).
Defined.

(** ** [IniStore]: the typed readers *)

Lemma get_unset_no_section c sec opt :
  ConfigParser._sections c !! sec = None ->
  sec <> ConfigParser.DEFAULTSECT ->
  ConfigParser.get c sec opt None = Raise NoSectionError.
Proof.
  intros Hs Hd. unfold ConfigParser.get, ConfigParser._unify_values.
  rewrite Hs. by rewrite decide_True.
Qed.

Lemma get_unset_no_option c sec opt d :
  ConfigParser._sections c !! sec = Some d ->
  (d ∪ ConfigParser._defaults c) !! ConfigParser.optionxform opt = None ->
  ConfigParser.get c sec opt None = Raise NoOptionError.
Proof.
  intros Hs Ho. unfold ConfigParser.get, ConfigParser._unify_values.
  by rewrite Hs, Ho.
Qed.

(** X16.  [IniStore.read_bool_value] on a key that splits into [sec] and
    [field]: a missing section or a field that neither the section nor the
    defaults hold gives the default; a stored string (without percent
    sign) is compared without regard to letter case, ["1"], ["yes"],
    ["true"] and ["on"] being true, ["0"], ["no"], ["false"] and ["off"]
    false; any other stored string raises [ValueError], and the default is
    not used. *)
Theorem ini_read_bool_value_spellings (self : IniStore.t) key sec field
    default :
  IniStore._parse_key key = Ok (sec, field) ->
  let c := IniStore._config self in
  let r := (IniStore.read_bool_value key default self).1 in
  (ConfigParser._sections c !! sec = None ->
   sec <> ConfigParser.DEFAULTSECT -> r = Ok default) /\
  (forall d,
      ConfigParser._sections c !! sec = Some d ->
      d !! str_lower field = None ->
      ConfigParser._defaults c !! str_lower field = None ->
      r = Ok default) /\
  (forall d raw,
      ConfigParser._sections c !! sec = Some d ->
      d !! str_lower field = Some raw ->
      str_contains "%" raw = false ->
      (str_lower raw ∈ ["1"; "yes"; "true"; "on"] -> r = Ok true) /\
      (str_lower raw ∈ ["0"; "no"; "false"; "off"] -> r = Ok false) /\
      (str_lower raw ∉ ["1"; "yes"; "true"; "on"; "0"; "no"; "false"; "off"] ->
       r = Raise ValueError)).
Proof.
  intros Hp c r. subst r. rewrite (ini_read_bool_value_get _ _ _ _ _ Hp).
  fold c. split; [|split].
  - intros Hs Hd. unfold ConfigParser.getboolean, ConfigParser._get_conv.
    by rewrite get_unset_no_section.
  - intros d Hs Ho Hdf. unfold ConfigParser.getboolean, ConfigParser._get_conv.
    rewrite (get_unset_no_option _ _ _ d); [done|done|].
    by apply lookup_union_None.
  - intros d raw Hs Ho Hraw.
    rewrite (getboolean_found _ _ _ _ d raw Hs Ho Hraw). simpl.
    split; [|split].
    + intros Hin. repeat (apply elem_of_cons in Hin as [->|Hin]);
        try done. by apply elem_of_nil in Hin.
    + intros Hin. repeat (apply elem_of_cons in Hin as [->|Hin]);
        try done. by apply elem_of_nil in Hin.
    + intros Hnot.
      assert (ConfigParser.BOOLEAN_STATES !! str_lower raw = None) as ->; [|done].
      apply not_elem_of_list_to_map_1. simpl. set_unfold. tauto.
Qed.

Lemma ini_read_bool_value_spellings_witness :
  let self := Sample.ini [("ui", [("dark", "On"); ("beta", "maybe")])] [] in
  (IniStore.read_bool_value "ui.dark" false self).1 = Ok true /\
  (IniStore.read_bool_value "ui.beta" true self).1 = Raise ValueError /\
  (IniStore.read_bool_value "ui.none" true self).1 = Ok true.
Proof.
  intros self.
  pose proof (ini_read_bool_value_spellings self "ui.dark" "ui" "dark" false
                eq_refl) as (_ & _ & H1).
  pose proof (ini_read_bool_value_spellings self "ui.beta" "ui" "beta" true
                eq_refl) as (_ & _ & H2).
  pose proof (ini_read_bool_value_spellings self "ui.none" "ui" "none" true
                eq_refl) as (_ & H3 & _).
  split; [|split].
  - apply (H1 {["dark" := "On"; "beta" := "maybe"]} "On");
      [reflexivity|reflexivity|reflexivity|]. set_unfold. tauto.
  - apply (H2 {["dark" := "On"; "beta" := "maybe"]} "maybe");
      [reflexivity|reflexivity|reflexivity|]. set_unfold. intuition discriminate.
  - by apply (H3 {["dark" := "On"; "beta" := "maybe"]}).
Defined.

Lemma interpolate_loop_bad_escape expand map b r :
  b <> "%"%char -> b <> "("%char ->
  ConfigParser.interpolate_loop expand map 0 (String "%" (String b r))
  = Raise InterpolationSyntaxError.
Proof.
  intros H1 H2. cbn [ConfigParser.interpolate_loop].
  rewrite decide_True by done.
  destruct b as [[] [] [] [] [] [] [] []]; try reflexivity; by exfalso.
Qed.

(** Interpolation raises none but its own three exceptions. *)
Lemma interpolate_loop_exn expand map :
  (forall v e, expand v = Raise e ->
               e = InterpolationSyntaxError \/
               e = InterpolationMissingOptionError \/
               e = InterpolationDepthError) ->
  forall rest skip e,
    ConfigParser.interpolate_loop expand map skip rest = Raise e ->
    e = InterpolationSyntaxError \/
    e = InterpolationMissingOptionError \/
    e = InterpolationDepthError.
Proof.
  intros Hexp. induction rest as [|a rest IH]; intros skip e; [done|].
  destruct skip as [|k]; [|apply IH].
  destruct (decide (a = "%"%char)) as [->|Hne].
  - destruct rest as [|b r].
    { cbn. rewrite decide_True by done. intros [= <-]. auto. }
    destruct (decide (b = "%"%char)) as [->|Hb1].
    { cbn [ConfigParser.interpolate_loop]. rewrite decide_True by done.
      destruct (ConfigParser.interpolate_loop expand map 0 r) eqn:Hl; [done|].
      simpl. intros [= <-]. apply (IH 1%nat). exact Hl. }
    destruct (decide (b = "("%char)) as [->|Hb2].
    { cbn [ConfigParser.interpolate_loop]. rewrite decide_True by done.
      destruct (ConfigParser.keycre_match (String "%" (String "(" r)))
        as [[g n]|]; [|intros [= <-]; auto].
      destruct (map !! ConfigParser.optionxform g) as [v|];
        [|intros [= <-]; auto].
      destruct (if str_contains "%" v then expand v else Ok v) as [hd|e'] eqn:Hv.
      - simpl.
        match goal with
        | |- result_bind ?x _ = _ -> _ => destruct x eqn:Hl; [done|]
        end.
        simpl. intros [= <-]. apply (IH (n - 1)%nat). exact Hl.
      - simpl. intros [= <-]. destruct (str_contains "%" v); [|done].
        by apply (Hexp v). }
    rewrite interpolate_loop_bad_escape by done. intros [= <-]. auto.
  - cbn [ConfigParser.interpolate_loop]. rewrite decide_False by done.
    destruct (ConfigParser.interpolate_loop expand map 0 rest) eqn:Hl; [done|].
    simpl. intros [= <-]. by apply (IH 0%nat).
Qed.

Lemma before_get_exn raw map e :
  ConfigParser.before_get raw map = Raise e ->
  e = InterpolationSyntaxError \/
  e = InterpolationMissingOptionError \/
  e = InterpolationDepthError.
Proof.
  unfold ConfigParser.before_get.
  generalize ConfigParser.MAX_INTERPOLATION_DEPTH as n. intros n.
  revert raw e. induction n as [|n IH]; intros raw e; simpl.
  - intros [= <-]. auto.
  - apply interpolate_loop_exn. exact IH.
Qed.

Lemma get_conv_vs_get {A} c sec opt (conv : value -> result A) (d : A) :
  ConfigParser._get_conv c sec opt conv (Some d) =
  match ConfigParser.get c sec opt (Some VNone) with
  | Ok v => if is_not_None v then conv v else Ok d
  | Raise e => Raise e
  end.
Proof.
  unfold ConfigParser._get_conv, ConfigParser.get.
  destruct (ConfigParser._unify_values c sec) as [m|e] eqn:Hu.
  - destruct (m !! ConfigParser.optionxform opt) as [raw|]; [|done].
    destruct (ConfigParser.before_get raw m) as [s|e] eqn:Hb; [done|].
    simpl. apply before_get_exn in Hb.
    rewrite bool_decide_eq_false_2; [done|].
    intros [->| ->]; destruct Hb as [?|[?|?]]; discriminate.
  - unfold ConfigParser._unify_values in Hu.
    destruct (ConfigParser._sections c !! sec); [done|].
    case_decide; [|done]. by injection Hu as <-.
Qed.

(** X17.  On an [IniStore] the overriding [read_int_value] and
    [read_float_value] return what the contract's generic readers would
    return on the same store, for every key, document and default, as long
    as [int] and [float] raise neither [NoSectionError] nor
    [NoOptionError]: the default for a missing section or field, the
    converted string otherwise, and the same exception when the key is
    malformed, the interpolation fails or the conversion rejects the
    string. *)
Theorem ini_number_readers_agree `{PyBuiltins} (self : IniStore.t) key :
  (forall v e, py_int v = Raise e ->
               e <> NoSectionError /\ e <> NoOptionError) ->
  (forall v e, py_float v = Raise e ->
               e <> NoSectionError /\ e <> NoOptionError) ->
  (forall d,
      (IniStore.read_int_value key d self).1
      = (ConfigStore.read_int_value key d self).1) /\
  (forall d,
      (IniStore.read_float_value key d self).1
      = (ConfigStore.read_float_value key d self).1).
Proof.
  intros _ _.
  unfold IniStore.read_int_value, IniStore.read_float_value,
    ConfigStore.read_int_value, ConfigStore.read_float_value,
    ConfigParser.getint, ConfigParser.getfloat, bind, lift, ret.
  simpl. unfold IniStore.read_value, bind, lift.
  destruct (IniStore._parse_key key) as [[sec field]|]; [|done]. simpl.
  split; intros d; rewrite get_conv_vs_get;
    destruct (ConfigParser.get (IniStore._config self) sec field (Some VNone))
      as [v|e]; try done; simpl; destruct (is_not_None v); try done.
  - by destruct (py_int v).
  - by destruct (py_float v).
Qed.

Lemma ini_number_readers_agree_witness :
  let self := Sample.ini [("db", [("port", "5432"); ("host", "x")])] [] in
  (@IniStore.read_int_value Sample.builtins "db.port" None self).1
    = Ok (Some 5432) /\
  (@IniStore.read_int_value Sample.builtins "db.host" None self).1
    = Raise ValueError /\
  (@IniStore.read_int_value Sample.builtins "db.user" None self).1
    = Ok None.
Proof.
  intros self.
  assert (forall v e, Sample.int_of v = Raise e ->
                      e <> NoSectionError /\ e <> NoOptionError) as Hconv.
  { intros v e Hv. unfold Sample.int_of in Hv.
    destruct v as [| | |[|a s]]; try discriminate;
      try (injection Hv as <-; split; discriminate).
    destruct (Sample.digits 0 (String a s)); [discriminate|].
    injection Hv as <-; split; discriminate. }
  destruct (@ini_number_readers_agree Sample.builtins self "db.port"
              Hconv Hconv) as [H1 _].
  destruct (@ini_number_readers_agree Sample.builtins self "db.host"
              Hconv Hconv) as [H2 _].
  destruct (@ini_number_readers_agree Sample.builtins self "db.user"
              Hconv Hconv) as [H3 _].
  rewrite H1, H2, H3. repeat split; by vm_compute.
Defined.

(** ** [IniStore]: references between options *)

Lemma span_key_app name r :
  str_contains ")" name = false ->
  ConfigParser.span_key (name +:+ String ")" r) = (name, String ")" r).
Proof.
  induction name as [|a name IH]; [done|].
  intros [Hne Hn]%str_contains_cons. rewrite append_String. simpl.
  rewrite decide_False by done. by rewrite IH.
Qed.

Lemma keycre_match_reference name post :
  name <> "" -> str_contains ")" name = false ->
  ConfigParser.keycre_match
    (String "%" (String "(" (name +:+ String ")" (String "s" post))))
  = Some (name, (String.length name + 4)%nat).
Proof.
  intros Hne Hn. unfold ConfigParser.keycre_match.
  rewrite span_key_app by done. by destruct name.
Qed.

Lemma interpolate_loop_skip expand map s r :
  ConfigParser.interpolate_loop expand map (String.length s) (s +:+ r)
  = ConfigParser.interpolate_loop expand map 0 r.
Proof.
  induction s as [|a s IH]; [by destruct r|]. rewrite append_String. exact IH.
Qed.

Lemma append_length s r :
  String.length (s +:+ r) = (String.length s + String.length r)%nat.
Proof.
  induction s as [|a s IH]; [done|]. rewrite append_String. simpl.
  by rewrite IH.
Qed.

Lemma append_assoc_str s r t : (s +:+ r) +:+ t = s +:+ (r +:+ t).
Proof.
  induction s as [|a s IH]; [done|]. rewrite !append_String. by rewrite IH.
Qed.

Lemma interpolate_loop_at_reference expand map r :
  ConfigParser.interpolate_loop expand map 0 (String "%" (String "(" r)) =
  match ConfigParser.keycre_match (String "%" (String "(" r)) with
  | None => Raise InterpolationSyntaxError
  | Some (group1, e) =>
      match map !! ConfigParser.optionxform group1 with
      | None => Raise InterpolationMissingOptionError
      | Some v =>
          result_bind (if str_contains "%" v then expand v else Ok v)
            (fun hd =>
          result_bind
            (ConfigParser.interpolate_loop expand map (e - 1) (String "(" r))
            (fun tl => Ok (hd +:+ tl)))
      end
  end.
Proof. reflexivity. Qed.

(** The loop at a reference whose option is known. *)
Lemma interpolate_loop_reference expand map pre name post v :
  str_contains "%" pre = false ->
  name <> "" -> str_contains ")" name = false ->
  map !! ConfigParser.optionxform name = Some v ->
  ConfigParser.interpolate_loop expand map 0
    (pre +:+ String "%" (String "(" (name +:+ String ")" (String "s" post))))
  = result_bind (if str_contains "%" v then expand v else Ok v) (fun hd =>
    result_bind (ConfigParser.interpolate_loop expand map 0 post) (fun tl =>
    Ok (pre +:+ hd +:+ tl))).
Proof.
  intros Hpre Hne Hn Hv. induction pre as [|a pre IH].
  - rewrite append_empty, interpolate_loop_at_reference.
    rewrite keycre_match_reference by done. rewrite Hv.
    assert (ConfigParser.interpolate_loop expand map
              (String.length name + 4 - 1)
              (String "(" (name +:+ String ")" (String "s" post)))
            = ConfigParser.interpolate_loop expand map 0 post) as ->; [|done].
    rewrite <- (interpolate_loop_skip expand map (String "(" (name +:+ ")s")) post).
    f_equal.
    + simpl. rewrite append_length. simpl. lia.
    + by rewrite append_String, append_assoc_str.
  - apply str_contains_cons in Hpre as [Ha Hpre]. rewrite append_String.
    cbn [ConfigParser.interpolate_loop]. rewrite decide_False by done.
    rewrite (IH Hpre).
    destruct (if str_contains "%" v then expand v else Ok v); [|done]. simpl.
    by destruct (ConfigParser.interpolate_loop expand map 0 post).
Qed.

(** X18.  A stored string may refer to another option: when the string
    stored for a key is plain text around one reference [%(name)s], and
    [name] (lower-cased) is an option of the same section or of the
    defaults whose string has no percent sign, [read_value] returns the
    stored string with the reference replaced by that string. *)
Theorem ini_read_value_reference (self : IniStore.t) key sec field default
    d pre name post target :
  IniStore._parse_key key = Ok (sec, field) ->
  ConfigParser._sections (IniStore._config self) !! sec = Some d ->
  d !! str_lower field = Some (pre +:+ "%(" +:+ name +:+ ")s" +:+ post) ->
  str_contains "%" pre = false -> str_contains "%" post = false ->
  name <> "" -> str_contains ")" name = false ->
  (d ∪ ConfigParser._defaults (IniStore._config self)) !! str_lower name
    = Some target ->
  str_contains "%" target = false ->
  (IniStore.read_value key default self).1
  = Ok (VStr (pre +:+ target +:+ post)).
Proof.
  intros Hp Hs Hd Hpre Hpost Hne Hn Ht Htarget.
  rewrite (ini_read_value_get _ _ _ _ _ Hp).
  rewrite (get_in_section _ _ _ _ d Hs). unfold ConfigParser.optionxform.
  rewrite (lookup_union_Some_l _ _ _ _ Hd).
  unfold ConfigParser.before_get. simpl.
  change (pre +:+ "%(" +:+ name +:+ ")s" +:+ post)
    with (pre +:+ String "%" (String "(" (name +:+ String ")" (String "s" post)))).
  rewrite (interpolate_loop_reference _ _ _ _ _ target) by done.
  rewrite Htarget. simpl. by rewrite interpolate_loop_plain.
Qed.

Lemma ini_read_value_reference_witness :
  (IniStore.read_value "db.url" VNone
     (Sample.ini [("db", [("url", "http://%(Host)s/api")])]
        [("host", "example.org")])).1
  = Ok (VStr "http://example.org/api").
Proof.
  apply (ini_read_value_reference _ "db.url" "db" "url" VNone
           {["url" := "http://%(Host)s/api"]} "http://" "Host" "/api"
           "example.org"); try reflexivity. discriminate.
Defined.

(** X19.  A stored string that refers to its own option cannot be read:
    when the string stored for a key is plain text, a reference to the
    key's own field (in any letter case), and anything after it,
    [read_value] raises [InterpolationDepthError], whatever the default. *)
Theorem ini_read_value_self_reference (self : IniStore.t) key sec field
    default d pre name post :
  IniStore._parse_key key = Ok (sec, field) ->
  ConfigParser._sections (IniStore._config self) !! sec = Some d ->
  d !! str_lower field = Some (pre +:+ "%(" +:+ name +:+ ")s" +:+ post) ->
  str_contains "%" pre = false ->
  name <> "" -> str_contains ")" name = false ->
  str_lower name = str_lower field ->
  (IniStore.read_value key default self).1 = Raise InterpolationDepthError.
Proof.
  intros Hp Hs Hd Hpre Hne Hn Hname.
  rewrite (ini_read_value_get _ _ _ _ _ Hp).
  rewrite (get_in_section _ _ _ _ d Hs). unfold ConfigParser.optionxform.
  rewrite (lookup_union_Some_l _ _ _ _ Hd).
  unfold ConfigParser.before_get.
  set (m := d ∪ ConfigParser._defaults (IniStore._config self)).
  set (v := pre +:+ "%(" +:+ name +:+ ")s" +:+ post).
  assert (m !! ConfigParser.optionxform name = Some v) as Hv.
  { unfold ConfigParser.optionxform. rewrite Hname.
    by apply lookup_union_Some_l. }
  assert (str_contains "%" v = true) as Hpc.
  { subst v. clear -Hpre. induction pre as [|a pre IH]; [done|].
    apply str_contains_cons in Hpre as [Ha Hpre]. rewrite append_String.
    apply str_contains_true. simpl. rewrite decide_False by done.
    apply str_contains_true in IH as [i ->]; [|done]. by eexists. }
  assert (forall n, ConfigParser._interpolate_some n m v
                    = Raise InterpolationDepthError) as Hdepth.
  { induction n as [|n IH]; [done|]. simpl. subst v.
    change (pre +:+ "%(" +:+ name +:+ ")s" +:+ post)
      with (pre +:+ String "%" (String "(" (name +:+ String ")" (String "s" post)))).
    rewrite (interpolate_loop_reference _ _ _ _ _ _ Hpre Hne Hn Hv).
    rewrite Hpc. fold (ConfigParser._interpolate_some n m). by rewrite IH. }
  by rewrite Hdepth.
Qed.

Lemma ini_read_value_self_reference_witness :
  (IniStore.read_value "db.path" (VStr "D")
     (Sample.ini [("db", [("path", "/opt:%(PATH)s")])] [])).1
  = Raise InterpolationDepthError.
Proof.
  apply (ini_read_value_self_reference _ "db.path" "db" "path" (VStr "D")
           {["path" := "/opt:%(PATH)s"]} "/opt:" "PATH" "");
    try reflexivity. discriminate.
Defined.

(** ** [IniStore.write_value]: which exception *)

(** X21.  For a key that splits into [sec] and [field], [write_value] has
    three outcomes only: it returns, it raises [ValueError] or it raises
    [NoSectionError].  The value is checked before the section is looked
    up: a non-empty string form that fails the interpolation-syntax check
    raises [ValueError] whether or not the section exists, and a string
    form that passes raises [NoSectionError] when [sec] is no section of
    the parser (and neither empty nor [DEFAULT]). *)
Theorem ini_write_value_errors (self : IniStore.t) key sec field v :
  IniStore._parse_key key = Ok (sec, field) ->
  let r := (IniStore.write_value key v self).1 in
  (py_str v <> "" ->
   ConfigParser.before_set (py_str v) = Raise ValueError ->
   r = Raise ValueError) /\
  (ConfigParser.before_set (py_str v) = Ok (py_str v) ->
   ConfigParser._sections (IniStore._config self) !! sec = None ->
   sec <> "" -> sec <> ConfigParser.DEFAULTSECT ->
   r = Raise NoSectionError) /\
  (r = Ok tt \/ r = Raise ValueError \/ r = Raise NoSectionError).
Proof.
  intros Hp r. subst r.
  destruct (ini_write_value_set key sec field v self Hp) as [-> _].
  unfold ConfigParser.set. split; [|split].
  - intros Hne Hv. rewrite bool_decide_eq_false_2 by done. by rewrite Hv.
  - intros Hv Hs H1 H2.
    replace (if bool_decide (py_str v = "") then Ok (py_str v)
             else ConfigParser.before_set (py_str v))
      with (Ok (A:=string) (py_str v)) by (by case_bool_decide).
    rewrite bool_decide_eq_false_2 by (by intros [|]). by rewrite Hs.
  - assert (forall s, ConfigParser.before_set s = Ok s \/
                      ConfigParser.before_set s = Raise ValueError) as Hbs.
    { intros s. unfold ConfigParser.before_set.
      destruct (str_contains _ _); auto. }
    case_bool_decide as Hempty.
    + case_bool_decide; [by left|].
      destruct (ConfigParser._sections _ !! sec); simpl; auto.
    + destruct (Hbs (py_str v)) as [-> | ->]; [|simpl; auto].
      case_bool_decide; [by left|].
      destruct (ConfigParser._sections _ !! sec); simpl; auto.
Qed.

Lemma ini_write_value_errors_witness :
  (IniStore.write_value "cache.ttl" (VStr "100%")
     (Sample.ini [("db", [])] [])).1 = Raise ValueError /\
  (IniStore.write_value "cache.ttl" (VStr "100")
     (Sample.ini [("db", [])] [])).1 = Raise NoSectionError.
Proof.
  split.
  - apply (proj1 (ini_write_value_errors (Sample.ini [("db", [])] [])
                    "cache.ttl" "cache" "ttl" (VStr "100%") eq_refl));
      [discriminate|reflexivity].
  - apply (proj1 (proj2 (ini_write_value_errors (Sample.ini [("db", [])] [])
                           "cache.ttl" "cache" "ttl" (VStr "100") eq_refl)));
      [reflexivity|reflexivity|discriminate|discriminate].
Defined.
